(** * genai-perf [LlmInputs]: dataset normalisation and payload formatting

    A shallow embedding of
    [src/c++/perf_analyzer/genai-perf/genai_perf/llm_inputs/llm_inputs.py].

    Python values are embedded as follows.
    - JSON documents ([dict], [list], [str], [int], [bool], [None]) are the
      inductive [json]; a [dict] is an association list, because insertion
      order is what [entry.items()] and [json.dumps] observe.  JSON floats
      are not modelled.
    - A statement that can raise returns [res]: [Ok v] or [Raise e].
    - In-place updates such as [pa_json["data"][index]["model"] = m] are
      written with path combinators ([at_key], [at_idx], [setitem], [append])
      that rebuild the document; no object of this module is aliased after
      it has been mutated, so rebuilding and mutating agree.
    - The random generator, the prompt generator, the network and the output
      file are outside the module: [create_llm_inputs] runs in a state monad
      over a [world] that holds the generator state and a log of the requests
      sent and files written.
    - The formatters are given twice.  At top level they take a dataset of
      text cells, as their annotations [header: str, content: str] say; the
      properties of the payloads are stated there.  In the module [Untyped]
      they take whatever document normalisation returned, cell by cell as
      Python does; that is what [create_llm_inputs] runs.  The two agree on
      every dataset of text cells ([untyped_convert_agrees]). *)

From Stdlib Require Import ZArith Ascii String.
From stdpp Require Import base list strings pretty.

Local Open Scope string_scope.
Local Open Scope list_scope.

(** ** JSON values and Python exceptions *)

#[local] Unset Elimination Schemes.
Inductive json : Type :=
| JNull
| JBool (b : bool)
| JInt (n : Z)
| JStr (s : string)
| JList (l : list json)
| JObj (d : list (string * json)).
#[local] Set Elimination Schemes.

Inductive exn : Type :=
| GenAIPerfException (arg : json)      (* GenAIPerfException("...") *)
| GenAIPerfExceptionOf (cause : exn)   (* GenAIPerfException(e) *)
| KeyError (key : string)
| IndexError
| TypeError
| AttributeError
| JSONDecodeError.

Inductive res (A : Type) : Type :=
| Ok (a : A)
| Raise (e : exn).
Arguments Ok {A} a.
Arguments Raise {A} e.

Definition bind {A B} (m : res A) (k : A -> res B) : res B :=
  match m with
  | Ok a => k a
  | Raise e => Raise e
  end.

Declare Scope py_scope.
Delimit Scope py_scope with py.
Notation "x <- m ;; k" := (bind m (fun x => k))
  (at level 100, m at next level, right associativity) : py_scope.
Local Open Scope py_scope.

(** [for x in xs: s = body(s, x)] *)
Fixpoint for_each {S A} (xs : list A) (s : S) (body : S -> A -> res S) : res S :=
  match xs with
  | [] => Ok s
  | x :: xs' => s' <- body s x ;; for_each xs' s' body
  end.

(** [enumerate(xs)] *)
Definition enumerate {A} (xs : list A) : list (nat * A) :=
  combine (seq 0 (length xs)) xs.

(** Python truthiness, as tested by [if v:] and [if not v:]. *)
Definition truthy (v : json) : bool :=
  match v with
  | JNull => false
  | JBool b => b
  | JInt n => negb (Z.eqb n 0)
  | JStr s => negb (String.eqb s "")
  | JList l => match l with [] => false | _ => true end
  | JObj d => match d with [] => false | _ => true end
  end.

(** *** dict and list primitives *)

Fixpoint dict_get (k : string) (d : list (string * json)) : option json :=
  match d with
  | [] => None
  | (k', v) :: d' => if String.eqb k k' then Some v else dict_get k d'
  end.

(** [d[k] = v]: an existing key keeps its position, a new key goes last. *)
Fixpoint dict_set (k : string) (v : json) (d : list (string * json))
  : list (string * json) :=
  match d with
  | [] => [(k, v)]
  | (k', v') :: d' =>
      if String.eqb k k' then (k', v) :: d' else (k', v') :: dict_set k v d'
  end.

(** [k in d.keys()] *)
Definition has_key (k : string) (j : json) : res bool :=
  match j with
  | JObj d => Ok (match dict_get k d with Some _ => true | None => false end)
  | _ => Raise AttributeError
  end.

(** [j[k]] for a string key. *)
Definition getitem (k : string) (j : json) : res json :=
  match j with
  | JObj d => match dict_get k d with Some v => Ok v | None => Raise (KeyError k) end
  | _ => Raise TypeError
  end.

(** [j[i]] for a non-negative position; a [dict] has no integer key here, a
    [str] yields the character at [i]. *)
Definition getidx (i : nat) (j : json) : res json :=
  match j with
  | JList l => match l !! i with Some v => Ok v | None => Raise IndexError end
  | JStr s => match String.get i s with
              | Some c => Ok (JStr (String c EmptyString))
              | None => Raise IndexError
              end
  | JObj _ => Raise (KeyError (pretty i))
  | _ => Raise TypeError
  end.

(** [j[k] = v] for a string key. *)
Definition setitem (k : string) (v : json) (j : json) : res json :=
  match j with
  | JObj d => Ok (JObj (dict_set k v d))
  | _ => Raise TypeError
  end.

(** [j[i] = v] for a position of a list. *)
Definition setidx (i : nat) (v : json) (j : json) : res json :=
  match j with
  | JList l => match l !! i with
               | Some _ => Ok (JList (<[i := v]> l))
               | None => Raise IndexError
               end
  | _ => Raise TypeError
  end.

(** [j.append(v)] *)
Definition append (v : json) (j : json) : res json :=
  match j with
  | JList l => Ok (JList (l ++ [v]))
  | _ => Raise AttributeError
  end.

(** [at_key k f j] performs the update [f] on the object stored at [j[k]];
    [at_idx i f j] on the one stored at [j[i]]. *)
Definition at_key (k : string) (f : json -> res json) (j : json) : res json :=
  v <- getitem k j ;; v' <- f v ;; setitem k v' j.

Definition at_idx (i : nat) (f : json -> res json) (j : json) : res json :=
  v <- getidx i j ;; v' <- f v ;; setidx i v' j.

(** [a + f" {b}"] where [b] is text: defined on text only. *)
Definition add_spaced (a : json) (b : string) : res json :=
  match a with
  | JStr s => Ok (JStr (String.append s (String.append " " b)))
  | _ => Raise TypeError
  end.

(** [header in role_headers] *)
Definition in_list (x : string) (l : list string) : bool :=
  existsb (String.eqb x) l.

(** ** The generic dataset handed to the formatters

    [{"features": [name, ...], "rows": [{header: content, ...}, ...]}], with
    the cells typed as the annotations [header: str, content: str] of the
    formatters say.  The [features] key may be missing. *)

Definition Row : Type := list (string * string).

Record GenericDataset : Type := {
  features : option (list string);
  rows : list Row
}.

Inductive OutputFormat : Type :=
| OPENAI_CHAT_COMPLETIONS
| OPENAI_COMPLETIONS
| TRTLLM
| VLLM.

Definition DEFAULT_TRTLLM_MAX_TOKENS : Z := 256.

Definition EMPTY_JSON_IN_VLLM_PA_FORMAT : json := JObj [("data", JList [])].
Definition EMPTY_JSON_IN_TRTLLM_PA_FORMAT : json := JObj [("data", JList [])].
Definition EMPTY_JSON_IN_OPENAI_PA_FORMAT : json := JObj [("data", JList [])].

Definition _create_empty_openai_pa_json : json := EMPTY_JSON_IN_OPENAI_PA_FORMAT.
Definition _create_empty_vllm_pa_json : json := EMPTY_JSON_IN_VLLM_PA_FORMAT.
Definition _create_empty_trtllm_pa_json : json := EMPTY_JSON_IN_TRTLLM_PA_FORMAT.

(** ** Role classification *)

Definition SYSTEM_ROLE_LIST : list string := ["system_prompt"].
Definition USER_ROLE_LIST : list string := ["question"; "article"].
Definition TEXT_INPUT_LIST : list string := ["text_input"].

(** One iteration of the loop over [dataset_json["features"]]; the state is
    [(system_role_headers, user_role_headers, text_input_headers)]. *)
Definition classify_feature
  (acc : list string * list string * list string) (feature : string)
  : list string * list string * list string :=
  let '(system_role_headers, user_role_headers, text_input_headers) := acc in
  let system_role_headers :=
    if in_list feature SYSTEM_ROLE_LIST
    then system_role_headers ++ [feature] else system_role_headers in
  let user_role_headers :=
    if in_list feature USER_ROLE_LIST
    then user_role_headers ++ [feature] else user_role_headers in
  let user_role_headers :=
    if in_list feature TEXT_INPUT_LIST
    then user_role_headers ++ [feature] else user_role_headers in
  (system_role_headers, user_role_headers, text_input_headers).

Definition _determine_json_feature_roles (dataset_json : GenericDataset)
  : list string * list string * list string :=
  match features dataset_json with
  | Some fs => fold_left classify_feature fs ([], [], [])
  | None => ([], [], [])
  end.

(** ** Building one message, prompt or text input *)

Definition _create_new_openai_chat_completions_message
  (header : string) (system_role_headers user_role_headers : list string)
  (content : string) : json :=
  (* Do not add messages with blank content *)
  if negb (truthy (JStr content)) then JObj []
  else if in_list header system_role_headers then
    JObj [("role", JStr "system"); ("content", JStr content)]
  else if in_list header user_role_headers then
    JObj [("role", JStr "user"); ("content", JStr content)]
  else JObj [].

Definition _create_new_prompt
  (header : string)
  (system_role_headers user_role_headers text_input_headers : list string)
  (content : string) : string :=
  let new_prompt := "" in
  if in_list header system_role_headers
     || in_list header user_role_headers
     || in_list header text_input_headers
  then content else new_prompt.

Definition _create_new_text_input
  (header : string)
  (system_role_headers user_role_headers text_input_headers : list string)
  (content : string) : string :=
  let new_text_input := "" in
  if in_list header system_role_headers
     || in_list header user_role_headers
     || in_list header text_input_headers
  then content else new_text_input.

(** ** Folding it into the payload under construction *)

Definition _add_new_message_to_json
  (pa_json : json) (index : nat) (new_message : json) : res json :=
  if truthy new_message then
    at_key "data" (at_idx index (at_key "payload" (at_idx 0
      (at_key "messages" (append new_message))))) pa_json
  else Ok pa_json.

Definition _add_new_text_input_to_json
  (pa_json : json) (index : nat) (new_text_input : string) : res json :=
  if truthy (JStr new_text_input) then
    cur <- (d <- getitem "data" pa_json ;; p <- getidx index d ;;
            t <- getitem "text_input" p ;; getidx 0 t) ;;
    if truthy cur then
      v <- add_spaced cur new_text_input ;;
      at_key "data" (at_idx index (at_key "text_input" (setidx 0 v))) pa_json
    else
      at_key "data" (at_idx index (at_key "text_input"
        (setidx 0 (JStr new_text_input)))) pa_json
  else Ok pa_json.

Definition _add_new_prompt_to_json
  (pa_json : json) (index : nat) (new_prompt : string) : res json :=
  if truthy (JStr new_prompt) then
    cur <- (d <- getitem "data" pa_json ;; p <- getidx index d ;;
            q <- getitem "payload" p ;; r <- getidx 0 q ;;
            t <- getitem "prompt" r ;; getidx 0 t) ;;
    if truthy cur then
      v <- add_spaced cur new_prompt ;;
      at_key "data" (at_idx index (at_key "payload" (at_idx 0
        (at_key "prompt" (setidx 0 v))))) pa_json
    else
      at_key "data" (at_idx index (at_key "payload" (at_idx 0
        (at_key "prompt" (setidx 0 (JStr new_prompt)))))) pa_json
  else Ok pa_json.

(** ** Optional and required tags *)

Definition _add_optional_tags_to_openai_json
  (pa_json : json) (index : nat) (add_model_name add_stream : bool)
  (model_name : string) : res json :=
  pa_json <-
    (if add_model_name then
       at_key "data" (at_idx index (at_key "payload" (at_idx 0
         (setitem "model" (JStr model_name))))) pa_json
     else Ok pa_json) ;;
  if add_stream then
    at_key "data" (at_idx index (at_key "payload" (at_idx 0
      (setitem "stream" (JBool true))))) pa_json
  else Ok pa_json.

Definition _add_optional_tags_to_vllm_json
  (pa_json : json) (index : nat) (add_model_name add_stream : bool)
  (model_name : string) : res json :=
  pa_json <-
    (if add_model_name then
       at_key "data" (at_idx index (setitem "model" (JStr model_name))) pa_json
     else Ok pa_json) ;;
  if add_stream then
    at_key "data" (at_idx index (setitem "stream" (JList [JBool true]))) pa_json
  else Ok pa_json.

Definition _add_optional_tags_to_trtllm_json
  (pa_json : json) (index : nat) (add_model_name add_stream : bool)
  (model_name : string) : res json :=
  pa_json <-
    (if add_model_name then
       at_key "data" (at_idx index (setitem "model" (JStr model_name))) pa_json
     else Ok pa_json) ;;
  if add_stream then
    at_key "data" (at_idx index (setitem "stream" (JList [JBool true]))) pa_json
  else Ok pa_json.

Definition _add_required_tags_to_trtllm_json
  (pa_json : json) (index : nat) : res json :=
  at_key "data" (at_idx index
    (setitem "max_tokens" (JList [JInt DEFAULT_TRTLLM_MAX_TOKENS]))) pa_json.

(** ** The four formatters *)

Definition _populate_openai_chat_completions_output_json
  (dataset_json : GenericDataset)
  (system_role_headers user_role_headers : list string)
  (add_model_name add_stream : bool) (model_name : string) : res json :=
  let pa_json := _create_empty_openai_pa_json in
  for_each (enumerate (rows dataset_json)) pa_json (fun pa_json '(index, entry) =>
    pa_json <- at_key "data" (append (JObj [("payload", JList [])])) pa_json ;;
    pa_json <- at_key "data" (at_idx index (at_key "payload"
                 (append (JObj [("messages", JList [])])))) pa_json ;;
    pa_json <- for_each entry pa_json (fun pa_json '(header, content) =>
      let new_message := _create_new_openai_chat_completions_message
                           header system_role_headers user_role_headers content in
      _add_new_message_to_json pa_json index new_message) ;;
    _add_optional_tags_to_openai_json
      pa_json index add_model_name add_stream model_name).

Definition _populate_openai_completions_output_json
  (dataset_json : GenericDataset)
  (system_role_headers user_role_headers text_input_headers : list string)
  (add_model_name add_stream : bool) (model_name : string) : res json :=
  let pa_json := _create_empty_openai_pa_json in
  for_each (enumerate (rows dataset_json)) pa_json (fun pa_json '(index, entry) =>
    pa_json <- at_key "data" (append (JObj [("payload", JList [])])) pa_json ;;
    pa_json <- at_key "data" (at_idx index (at_key "payload"
                 (append (JObj [("prompt", JList [JStr ""])])))) pa_json ;;
    pa_json <- for_each entry pa_json (fun pa_json '(header, content) =>
      let new_prompt := _create_new_prompt
                          header system_role_headers user_role_headers
                          text_input_headers content in
      _add_new_prompt_to_json pa_json index new_prompt) ;;
    _add_optional_tags_to_openai_json
      pa_json index add_model_name add_stream model_name).

Definition _populate_vllm_output_json
  (dataset_json : GenericDataset)
  (system_role_headers user_role_headers text_input_headers : list string)
  (add_model_name add_stream : bool) (model_name : string) : res json :=
  let pa_json := _create_empty_vllm_pa_json in
  for_each (enumerate (rows dataset_json)) pa_json (fun pa_json '(index, entry) =>
    pa_json <- at_key "data"
                 (append (JObj [("text_input", JList [JStr ""])])) pa_json ;;
    pa_json <- for_each entry pa_json (fun pa_json '(header, content) =>
      let new_text_input := _create_new_text_input
                              header system_role_headers user_role_headers
                              text_input_headers content in
      _add_new_text_input_to_json pa_json index new_text_input) ;;
    _add_optional_tags_to_vllm_json
      pa_json index add_model_name add_stream model_name).

Definition _populate_trtllm_output_json
  (dataset_json : GenericDataset)
  (system_role_headers user_role_headers text_input_headers : list string)
  (add_model_name add_stream : bool) (model_name : string) : res json :=
  let pa_json := _create_empty_trtllm_pa_json in
  for_each (enumerate (rows dataset_json)) pa_json (fun pa_json '(index, entry) =>
    pa_json <- at_key "data"
                 (append (JObj [("text_input", JList [JStr ""])])) pa_json ;;
    pa_json <- for_each entry pa_json (fun pa_json '(header, content) =>
      let new_text_input := _create_new_text_input
                              header system_role_headers user_role_headers
                              text_input_headers content in
      _add_new_text_input_to_json pa_json index new_text_input) ;;
    pa_json <- _add_required_tags_to_trtllm_json pa_json index ;;
    _add_optional_tags_to_trtllm_json
      pa_json index add_model_name add_stream model_name).

Definition _convert_generic_json_to_openai_chat_completions_format
  (dataset_json : GenericDataset) (add_model_name add_stream : bool)
  (model_name : string) : res json :=
  let '(system_role_headers, user_role_headers, _) :=
    _determine_json_feature_roles dataset_json in
  _populate_openai_chat_completions_output_json
    dataset_json system_role_headers user_role_headers
    add_model_name add_stream model_name.

Definition _convert_generic_json_to_openai_completions_format
  (dataset_json : GenericDataset) (add_model_name add_stream : bool)
  (model_name : string) : res json :=
  let '(system_role_headers, user_role_headers, text_input_headers) :=
    _determine_json_feature_roles dataset_json in
  _populate_openai_completions_output_json
    dataset_json system_role_headers user_role_headers text_input_headers
    add_model_name add_stream model_name.

Definition _convert_generic_json_to_vllm_format
  (dataset_json : GenericDataset) (add_model_name add_stream : bool)
  (model_name : string) : res json :=
  let '(system_role_headers, user_role_headers, text_input_headers) :=
    _determine_json_feature_roles dataset_json in
  _populate_vllm_output_json
    dataset_json system_role_headers user_role_headers text_input_headers
    add_model_name add_stream model_name.

Definition _convert_generic_json_to_trtllm_format
  (dataset_json : GenericDataset) (add_model_name add_stream : bool)
  (model_name : string) : res json :=
  let '(system_role_headers, user_role_headers, text_input_headers) :=
    _determine_json_feature_roles dataset_json in
  _populate_trtllm_output_json
    dataset_json system_role_headers user_role_headers text_input_headers
    add_model_name add_stream model_name.

(** The [else] branch of the source, raising for an unsupported format, is
    unreachable: [OutputFormat] has exactly these four members. *)
Definition _convert_generic_json_to_output_format
  (output_format : OutputFormat) (generic_dataset : GenericDataset)
  (add_model_name add_stream : bool) (model_name : string) : res json :=
  match output_format with
  | OPENAI_CHAT_COMPLETIONS =>
      _convert_generic_json_to_openai_chat_completions_format
        generic_dataset add_model_name add_stream model_name
  | OPENAI_COMPLETIONS =>
      _convert_generic_json_to_openai_completions_format
        generic_dataset add_model_name add_stream model_name
  | VLLM =>
      _convert_generic_json_to_vllm_format
        generic_dataset add_model_name add_stream model_name
  | TRTLLM =>
      _convert_generic_json_to_trtllm_format
        generic_dataset add_model_name add_stream model_name
  end.

(** ** What each formatter computes for one row

    Closed forms of the per-row work of the four loops; the theorems below
    show that the loops compute exactly these. *)

Definition pa (payloads : list json) : json := JObj [("data", JList payloads)].

(** A header contributes to a text field when it is in one of the roles. *)
Definition in_roles (h : string) (sys usr txt : list string) : bool :=
  in_list h sys || in_list h usr || in_list h txt.

(** One fold step of the text field: an empty contribution is a no-op, the
    first non-empty one is taken verbatim, later ones follow one space. *)
Definition join_text (acc c : string) : string :=
  if String.eqb c "" then acc
  else if String.eqb acc "" then c
  else String.append acc (String.append " " c).

Definition contribution (sys usr txt : list string) (hc : string * string)
  : string :=
  if in_roles hc.1 sys usr txt then hc.2 else "".

Definition row_text (sys usr txt : list string) (entry : Row) : string :=
  fold_left join_text (map (contribution sys usr txt) entry) "".

(** A header contributes a chat message when it is in the system or the user
    role and its content is not empty. *)
Definition emits_message (sys usr : list string) (hc : string * string) : bool :=
  negb (String.eqb hc.2 "") && (in_list hc.1 sys || in_list hc.1 usr).

Definition message_of (sys : list string) (hc : string * string) : json :=
  JObj [("role", JStr (if in_list hc.1 sys then "system" else "user"));
        ("content", JStr hc.2)].

Definition row_messages (sys usr : list string) (entry : Row) : list json :=
  map (message_of sys) (List.filter (emits_message sys usr) entry).

Definition optional_openai (add_model_name add_stream : bool)
  (model_name : string) : list (string * json) :=
  (if add_model_name then [("model", JStr model_name)] else [])
  ++ (if add_stream then [("stream", JBool true)] else []).

Definition optional_listed (add_model_name add_stream : bool)
  (model_name : string) : list (string * json) :=
  (if add_model_name then [("model", JStr model_name)] else [])
  ++ (if add_stream then [("stream", JList [JBool true])] else []).

Definition chat_payload (sys usr : list string)
  (add_model_name add_stream : bool) (model_name : string) (entry : Row) : json :=
  JObj [("payload",
         JList [JObj (("messages", JList (row_messages sys usr entry))
                      :: optional_openai add_model_name add_stream model_name)])].

Definition completions_payload (sys usr txt : list string)
  (add_model_name add_stream : bool) (model_name : string) (entry : Row) : json :=
  JObj [("payload",
         JList [JObj (("prompt", JList [JStr (row_text sys usr txt entry)])
                      :: optional_openai add_model_name add_stream model_name)])].

Definition vllm_payload (sys usr txt : list string)
  (add_model_name add_stream : bool) (model_name : string) (entry : Row) : json :=
  JObj (("text_input", JList [JStr (row_text sys usr txt entry)])
        :: optional_listed add_model_name add_stream model_name).

Definition trtllm_payload (sys usr txt : list string)
  (add_model_name add_stream : bool) (model_name : string) (entry : Row) : json :=
  JObj (("text_input", JList [JStr (row_text sys usr txt entry)])
        :: ("max_tokens", JList [JInt 256])
        :: optional_listed add_model_name add_stream model_name).

(** The payload of one row under a given format and role sets. *)
Definition row_payload (output_format : OutputFormat)
  (sys usr txt : list string) (add_model_name add_stream : bool)
  (model_name : string) (entry : Row) : json :=
  match output_format with
  | OPENAI_CHAT_COMPLETIONS =>
      chat_payload sys usr add_model_name add_stream model_name entry
  | OPENAI_COMPLETIONS =>
      completions_payload sys usr txt add_model_name add_stream model_name entry
  | VLLM => vllm_payload sys usr txt add_model_name add_stream model_name entry
  | TRTLLM => trtllm_payload sys usr txt add_model_name add_stream model_name entry
  end.

(** The formatter of a format, with the role sets as arguments. *)
Definition populate (output_format : OutputFormat) (dataset_json : GenericDataset)
  (sys usr txt : list string) (add_model_name add_stream : bool)
  (model_name : string) : res json :=
  match output_format with
  | OPENAI_CHAT_COMPLETIONS =>
      _populate_openai_chat_completions_output_json
        dataset_json sys usr add_model_name add_stream model_name
  | OPENAI_COMPLETIONS =>
      _populate_openai_completions_output_json
        dataset_json sys usr txt add_model_name add_stream model_name
  | VLLM =>
      _populate_vllm_output_json
        dataset_json sys usr txt add_model_name add_stream model_name
  | TRTLLM =>
      _populate_trtllm_output_json
        dataset_json sys usr txt add_model_name add_stream model_name
  end.

(** The payload under construction, in the OpenAI shapes and in the
    vllm/trtllm shape. *)
Definition chat_cur (d : list (string * json)) : json :=
  JObj [("payload", JList [JObj d])].

Definition text_cur (t : string) (d : list (string * json)) : json :=
  JObj (("text_input", JList [JStr t]) :: d).

(** The classifier's vocabulary. *)
Definition VOCABULARY : list string :=
  ["system_prompt"; "question"; "article"; "text_input"].

Definition is_system_feature (f : string) : bool := in_list f SYSTEM_ROLE_LIST.
Definition is_user_feature (f : string) : bool :=
  in_list f USER_ROLE_LIST || in_list f TEXT_INPUT_LIST.

(** ** Reading a payload back *)

(** [p["payload"][0]["messages"]] *)
Definition messages_of (p : json) : res json :=
  q <- getitem "payload" p ;; r <- getidx 0 q ;; getitem "messages" r.

(** The text field of a payload: [p["text_input"][0]] in the vllm and trtllm
    schemas, [p["payload"][0]["prompt"][0]] in the OpenAI ones. *)
Definition text_field (output_format : OutputFormat) (p : json) : res json :=
  match output_format with
  | VLLM | TRTLLM => t <- getitem "text_input" p ;; getidx 0 t
  | _ => q <- getitem "payload" p ;; r <- getidx 0 q ;;
         t <- getitem "prompt" r ;; getidx 0 t
  end.

Definition TEXT_FORMATS : list OutputFormat := [OPENAI_COMPLETIONS; VLLM; TRTLLM].

(** ** Normalising a raw dataset (GenericDatasetBuilder)

    The raw dataset is whatever JSON document the server or the synthetic
    source produced, so these functions work on [json] and can raise. *)

(** [for x in v]: the items a Python [for] loop draws from a value. *)
Definition iterate (v : json) : res (list json) :=
  match v with
  | JList l => Ok l
  | JObj d => Ok (map (fun kv : string * json => JStr kv.1) d)
  | JStr s => Ok (map (fun c => JStr (String c EmptyString)) (list_ascii_of_string s))
  | _ => Raise TypeError
  end.

(** [v[k]] raises: [v] is not wrapped under the key [k]. *)
Definition lacks (k : string) (v : json) : Prop := exists e, getitem k v = Raise e.

Definition _add_features_to_generic_json
  (generic_input_json dataset_json : json) : res json :=
  present <- has_key "features" dataset_json ;;
  if present : bool then
    generic_input_json <- setitem "features" (JList []) generic_input_json ;;
    fs <- getitem "features" dataset_json ;;
    items <- iterate fs ;;
    for_each items generic_input_json (fun generic_input_json feature =>
      name <- getitem "name" feature ;;
      at_key "features" (append name) generic_input_json)
  else Ok generic_input_json.

Definition _add_rows_to_generic_json
  (generic_input_json dataset_json : json) : res json :=
  generic_input_json <- setitem "rows" (JList []) generic_input_json ;;
  rs <- getitem "rows" dataset_json ;;
  items <- iterate rs ;;
  for_each items generic_input_json (fun generic_input_json row =>
    r <- getitem "row" row ;;
    at_key "rows" (append r) generic_input_json).

Definition _convert_dataset_to_generic_input_json (dataset_json : json) : res json :=
  generic_input_json <- _add_features_to_generic_json (JObj []) dataset_json ;;
  _add_rows_to_generic_json generic_input_json dataset_json.

Definition _convert_input_synthetic_dataset_to_generic_json (dataset : json)
  : res json :=
  _convert_dataset_to_generic_input_json dataset.

Definition _check_for_error_in_json_of_dataset (json_of_dataset : json) : res unit :=
  present <- has_key "error" json_of_dataset ;;
  if present : bool then
    e <- getitem "error" json_of_dataset ;; Raise (GenAIPerfException e)
  else Ok tt.

(** [try: m  except Exception as e: raise GenAIPerfException(e)] *)
Definition reraise {A} (m : res A) : res A :=
  match m with
  | Ok a => Ok a
  | Raise e => Raise (GenAIPerfExceptionOf e)
  end.

(** [dataset] is the body of the HTTP response: [None] when it is not JSON,
    in which case [dataset.json()] raises. *)
Definition _convert_input_url_dataset_to_generic_json (dataset : option json)
  : res json :=
  dataset_json <- match dataset with
                  | Some j => Ok j
                  | None => Raise JSONDecodeError
                  end ;;
  _ <- reraise (_check_for_error_in_json_of_dataset dataset_json) ;;
  _convert_dataset_to_generic_input_json dataset_json.

(** *** From the normalised document to the typed dataset

    The formatters above take text cells.  [as_generic_dataset] reads a
    normalised document as a [GenericDataset]; a document with a cell or a
    feature name that is not text has no such reading.  It is a view used in
    statements, not a step of the run. *)

Definition as_text (v : json) : option string :=
  match v with JStr s => Some s | _ => None end.

Fixpoint as_text_list (l : list json) : option (list string) :=
  match l with
  | [] => Some []
  | v :: l' =>
      match as_text v, as_text_list l' with
      | Some s, Some ss => Some (s :: ss)
      | _, _ => None
      end
  end.

Fixpoint as_text_cells (d : list (string * json)) : option Row :=
  match d with
  | [] => Some []
  | (k, v) :: d' =>
      match as_text v, as_text_cells d' with
      | Some s, Some cells => Some ((k, s) :: cells)
      | _, _ => None
      end
  end.

Definition as_text_row (v : json) : option Row :=
  match v with JObj d => as_text_cells d | _ => None end.

Fixpoint as_text_rows (l : list json) : option (list Row) :=
  match l with
  | [] => Some []
  | v :: l' =>
      match as_text_row v, as_text_rows l' with
      | Some r, Some rs => Some (r :: rs)
      | _, _ => None
      end
  end.

Definition as_generic_dataset (generic_dataset_json : json) : option GenericDataset :=
  match generic_dataset_json with
  | JObj d =>
      match dict_get "rows" d with
      | Some (JList rs) =>
          match as_text_rows rs, dict_get "features" d with
          | Some rs', None => Some {| features := None; rows := rs' |}
          | Some rs', Some (JList fs) =>
              match as_text_list fs with
              | Some fs' => Some {| features := Some fs'; rows := rs' |}
              | None => None
              end
          | _, _ => None
          end
      | _ => None
      end
  | _ => None
  end.

(** ** Arguments and their validation *)

Inductive InputType : Type :=
| URL
| FILE
| SYNTHETIC.

(** A value passed for [starting_index] or [length]: an [int] proper, or any
    value that is not an instance of [int], kept with its [str()] rendering.
    A [bool], which Python counts as an [int] but prints as [True] or
    [False], is not among them. *)
Inductive pyarg : Type :=
| IntArg (z : Z)
| NonInt (shown : string).

Definition str_of (a : pyarg) : string :=
  match a with
  | IntArg z => pretty z
  | NonInt shown => shown
  end.

Definition DEFAULT_STARTING_INDEX : Z := 0.
Definition MINIMUM_STARTING_INDEX : Z := 0.
Definition DEFAULT_LENGTH : Z := 100.
Definition MINIMUM_LENGTH : Z := 1.

Definition _check_for_dataset_name_if_input_type_is_url
  (input_type : InputType) (dataset_name : string) : res unit :=
  if match input_type with URL => true | _ => false end
     && negb (truthy (JStr dataset_name))
  then Raise (GenAIPerfException
                (JStr "Input type is URL, but dataset_name is not specified."))
  else Ok tt.

Definition _check_for_valid_starting_index (starting_index : pyarg) : res unit :=
  match starting_index with
  | NonInt _ =>
      Raise (GenAIPerfException (JStr
        ("starting_index: " +:+ str_of starting_index +:+ " must be an integer.")))
  | IntArg z =>
      if (z <? MINIMUM_STARTING_INDEX)%Z then
        Raise (GenAIPerfException (JStr
          ("starting_index: " +:+ str_of starting_index
           +:+ " must be larger than " +:+ pretty MINIMUM_STARTING_INDEX +:+ ".")))
      else Ok tt
  end.

(** The second message says [starting_index], as the source does. *)
Definition _check_for_valid_length (length : pyarg) : res unit :=
  match length with
  | NonInt _ =>
      Raise (GenAIPerfException (JStr
        ("length: " +:+ str_of length +:+ " must be an integer.")))
  | IntArg z =>
      if (z <? MINIMUM_LENGTH)%Z then
        Raise (GenAIPerfException (JStr
          ("starting_index: " +:+ str_of length
           +:+ " must be larger than " +:+ pretty MINIMUM_LENGTH +:+ ".")))
      else Ok tt
  end.

Definition _check_for_valid_args
  (input_type : InputType) (dataset_name : string)
  (starting_index length : pyarg) : res unit :=
  reraise (
    _ <- _check_for_dataset_name_if_input_type_is_url input_type dataset_name ;;
    _ <- _check_for_valid_starting_index starting_index ;;
    _check_for_valid_length length).

(** The arguments that validation lets through, as a decision. *)
Definition valid_args (input_type : InputType) (dataset_name : string)
  (starting_index length : pyarg) : bool :=
  match starting_index, length with
  | IntArg s, IntArg l =>
      (0 <=? s)%Z && (1 <=? l)%Z
      && match input_type with
         | URL => negb (String.eqb dataset_name "")
         | _ => true
         end
  | _, _ => false
  end.

(** ** The dataset registry *)

(** Modelled from the spec: [genai_perf.constants] is not part of the source
    at hand; the spec names the dataset [openorca]. *)
Definition OPEN_ORCA : string := "openorca".

(** Modelled from the spec: the second dataset name of [genai_perf.constants],
    absent like [OPEN_ORCA]; it is taken to be the [dataset] parameter of
    [CNN_DAILYMAIL_URL]. *)
Definition CNN_DAILY_MAIL : string := "cnn_dailymail".

Definition OPEN_ORCA_URL : string :=
  "https://datasets-server.huggingface.co/rows?dataset=Open-Orca%2FOpenOrca&config=default&split=train".
Definition CNN_DAILYMAIL_URL : string :=
  "https://datasets-server.huggingface.co/rows?dataset=cnn_dailymail&config=1.0.0&split=train".

Fixpoint url_map_get (k : string) (m : list (string * string)) : option string :=
  match m with
  | [] => None
  | (k', v) :: m' => if String.eqb k k' then Some v else url_map_get k m'
  end.

Definition dataset_url_map : list (string * string) :=
  [(OPEN_ORCA, OPEN_ORCA_URL); (CNN_DAILY_MAIL, CNN_DAILYMAIL_URL)].

Definition _resolve_url (dataset_name : string) : res string :=
  match url_map_get dataset_name dataset_url_map with
  | Some url => Ok url
  | None =>
      Raise (GenAIPerfException (JStr
        (dataset_name
         +:+ " does not have a corresponding URL in the dataset_url_map.")))
  end.

Definition _create_configured_url (url : string) (starting_index length : pyarg)
  : string :=
  let starting_index_str := str_of starting_index in
  let length_str := str_of length in
  url +:+ "&offset=" +:+ starting_index_str +:+ "&length=" +:+ length_str.

(** [s.find("'", start)] for [start >= 0]: the position, or [-1]. *)
Definition find_quote (s : string) (start : nat) : Z :=
  match String.index start "'" s with
  | Some i => Z.of_nat i
  | None => (-1)%Z
  end.

(** [s[a:b]] for [b >= 0]; a negative [a] counts from the end. *)
Definition slice (s : string) (a b : Z) : string :=
  let len := Z.of_nat (String.length s) in
  let a' := if (a <? 0)%Z then Z.max 0 (a + len) else Z.min a len in
  let b' := Z.min b len in
  String.substring (Z.to_nat a') (Z.to_nat (b' - a')) s.

(** What an exception can hold in its [args]: a text, another exception
    (known by its own [args]), or an object that is neither and has no
    [args] and no [find] attribute. *)
#[local] Unset Elimination Schemes.
Inductive pyobj : Type :=
| PText (s : string)
| PExc (args : list pyobj)
| POther.
#[local] Set Elimination Schemes.

(** [o.args] *)
Definition args_of (o : pyobj) : res (list pyobj) :=
  match o with
  | PExc args => Ok args
  | _ => Raise AttributeError
  end.

(** [t[0]] for a tuple [t] *)
Definition first_of (t : list pyobj) : res pyobj :=
  match t with
  | x :: _ => Ok x
  | [] => Raise IndexError
  end.

(** [exception] is the exception that [requests.get] raised.  Nothing guards
    the reads of [args]: an exception whose first argument is a text, or that
    has no argument, makes this function raise. *)
Definition _create_error_message (exception : pyobj) : res string :=
  args <- args_of exception ;;
  cause <- first_of args ;;
  cause_args <- args_of cause ;;
  url_str <- first_of cause_args ;;
  match url_str with
  | PText url_str =>
      let url_start := find_quote url_str 0 in
      let url_end := (find_quote url_str (Z.to_nat (url_start + 1)) + 1)%Z in
      let error_message := "Invalid URL: " +:+ slice url_str url_start url_end in
      Ok error_message
  | _ => Raise AttributeError
  end.

(** ** Reading the optional fields back *)

(** The dict that carries [model] and [stream]: [p["payload"][0]] in the
    OpenAI schemas, [p] itself in the vllm and trtllm ones. *)
Definition payload_fields (output_format : OutputFormat) (p : json) : res json :=
  match output_format with
  | OPENAI_CHAT_COMPLETIONS | OPENAI_COMPLETIONS =>
      q <- getitem "payload" p ;; getidx 0 q
  | VLLM | TRTLLM => Ok p
  end.

(** The value stored under [stream]: a bare [True] in the OpenAI schemas, the
    list [[True]] in the other two. *)
Definition stream_value (output_format : OutputFormat) : json :=
  match output_format with
  | OPENAI_CHAT_COMPLETIONS | OPENAI_COMPLETIONS => JBool true
  | VLLM | TRTLLM => JList [JBool true]
  end.

(** The row with the headers outside the three role lists removed. *)
Definition classified_only (sys usr txt : list string) (entry : Row) : Row :=
  List.filter (fun hc : string * string => in_roles hc.1 sys usr txt) entry.

(** The non-empty contributions of a row, in stored order. *)
Definition spoken (sys usr txt : list string) (entry : Row) : list string :=
  List.filter (fun c => negb (String.eqb c ""))
    (map (contribution sys usr txt) entry).

(** ** The formatters on arbitrary cells

    The functions of the section "The four formatters" again, this time on
    the document that normalisation returned, whose cells and feature names
    can be any JSON value.  The functions that do not look at a cell
    ([_add_new_message_to_json], the tag functions) are the ones above. *)

Module Untyped.
Section Formatting.

(** [str(v)] for a list or a dict [v]. *)
Variable repr_of : json -> string.

(** [f"{v}"] *)
Definition format_value (v : json) : string :=
  match v with
  | JStr s => s
  | JInt n => pretty n
  | JBool true => "True"
  | JBool false => "False"
  | JNull => "None"
  | JList _ | JObj _ => repr_of v
  end.

(** [entry.items()] *)
Definition items (entry : json) : res (list (string * json)) :=
  match entry with
  | JObj d => Ok d
  | _ => Raise AttributeError
  end.

(** One iteration of the loop over the features.  The three vocabularies
    hold [str] only, so a feature that is not a [str] is [in] none of them. *)
Definition classify_feature
  (acc : list string * list string * list string) (feature : json)
  : list string * list string * list string :=
  match feature with
  | JStr name => classify_feature acc name
  | _ => acc
  end.

Definition _determine_json_feature_roles (dataset_json : json)
  : res (list string * list string * list string) :=
  present <- has_key "features" dataset_json ;;
  if present : bool then
    fs <- getitem "features" dataset_json ;;
    fl <- iterate fs ;;
    Ok (fold_left classify_feature fl ([], [], []))
  else Ok ([], [], []).

Definition _create_new_openai_chat_completions_message
  (header : string) (system_role_headers user_role_headers : list string)
  (content : json) : json :=
  (* Do not add messages with blank content *)
  if negb (truthy content) then JObj []
  else if in_list header system_role_headers then
    JObj [("role", JStr "system"); ("content", content)]
  else if in_list header user_role_headers then
    JObj [("role", JStr "user"); ("content", content)]
  else JObj [].

Definition _create_new_prompt
  (header : string)
  (system_role_headers user_role_headers text_input_headers : list string)
  (content : json) : json :=
  let new_prompt := JStr "" in
  if in_list header system_role_headers
     || in_list header user_role_headers
     || in_list header text_input_headers
  then content else new_prompt.

Definition _create_new_text_input
  (header : string)
  (system_role_headers user_role_headers text_input_headers : list string)
  (content : json) : json :=
  let new_text_input := JStr "" in
  if in_list header system_role_headers
     || in_list header user_role_headers
     || in_list header text_input_headers
  then content else new_text_input.

Definition _add_new_text_input_to_json
  (pa_json : json) (index : nat) (new_text_input : json) : res json :=
  if truthy new_text_input then
    cur <- (d <- getitem "data" pa_json ;; p <- getidx index d ;;
            t <- getitem "text_input" p ;; getidx 0 t) ;;
    if truthy cur then
      v <- add_spaced cur (format_value new_text_input) ;;
      at_key "data" (at_idx index (at_key "text_input" (setidx 0 v))) pa_json
    else
      at_key "data" (at_idx index (at_key "text_input"
        (setidx 0 new_text_input))) pa_json
  else Ok pa_json.

Definition _add_new_prompt_to_json
  (pa_json : json) (index : nat) (new_prompt : json) : res json :=
  if truthy new_prompt then
    cur <- (d <- getitem "data" pa_json ;; p <- getidx index d ;;
            q <- getitem "payload" p ;; r <- getidx 0 q ;;
            t <- getitem "prompt" r ;; getidx 0 t) ;;
    if truthy cur then
      v <- add_spaced cur (format_value new_prompt) ;;
      at_key "data" (at_idx index (at_key "payload" (at_idx 0
        (at_key "prompt" (setidx 0 v))))) pa_json
    else
      at_key "data" (at_idx index (at_key "payload" (at_idx 0
        (at_key "prompt" (setidx 0 new_prompt))))) pa_json
  else Ok pa_json.

Definition _populate_openai_chat_completions_output_json
  (dataset_json : json)
  (system_role_headers user_role_headers : list string)
  (add_model_name add_stream : bool) (model_name : string) : res json :=
  let pa_json := _create_empty_openai_pa_json in
  rs <- getitem "rows" dataset_json ;;
  entries <- iterate rs ;;
  for_each (enumerate entries) pa_json (fun pa_json '(index, entry) =>
    pa_json <- at_key "data" (append (JObj [("payload", JList [])])) pa_json ;;
    pa_json <- at_key "data" (at_idx index (at_key "payload"
                 (append (JObj [("messages", JList [])])))) pa_json ;;
    cells <- items entry ;;
    pa_json <- for_each cells pa_json (fun pa_json '(header, content) =>
      let new_message := _create_new_openai_chat_completions_message
                           header system_role_headers user_role_headers content in
      _add_new_message_to_json pa_json index new_message) ;;
    _add_optional_tags_to_openai_json
      pa_json index add_model_name add_stream model_name).

Definition _populate_openai_completions_output_json
  (dataset_json : json)
  (system_role_headers user_role_headers text_input_headers : list string)
  (add_model_name add_stream : bool) (model_name : string) : res json :=
  let pa_json := _create_empty_openai_pa_json in
  rs <- getitem "rows" dataset_json ;;
  entries <- iterate rs ;;
  for_each (enumerate entries) pa_json (fun pa_json '(index, entry) =>
    pa_json <- at_key "data" (append (JObj [("payload", JList [])])) pa_json ;;
    pa_json <- at_key "data" (at_idx index (at_key "payload"
                 (append (JObj [("prompt", JList [JStr ""])])))) pa_json ;;
    cells <- items entry ;;
    pa_json <- for_each cells pa_json (fun pa_json '(header, content) =>
      let new_prompt := _create_new_prompt
                          header system_role_headers user_role_headers
                          text_input_headers content in
      _add_new_prompt_to_json pa_json index new_prompt) ;;
    _add_optional_tags_to_openai_json
      pa_json index add_model_name add_stream model_name).

Definition _populate_vllm_output_json
  (dataset_json : json)
  (system_role_headers user_role_headers text_input_headers : list string)
  (add_model_name add_stream : bool) (model_name : string) : res json :=
  let pa_json := _create_empty_vllm_pa_json in
  rs <- getitem "rows" dataset_json ;;
  entries <- iterate rs ;;
  for_each (enumerate entries) pa_json (fun pa_json '(index, entry) =>
    pa_json <- at_key "data"
                 (append (JObj [("text_input", JList [JStr ""])])) pa_json ;;
    cells <- items entry ;;
    pa_json <- for_each cells pa_json (fun pa_json '(header, content) =>
      let new_text_input := _create_new_text_input
                              header system_role_headers user_role_headers
                              text_input_headers content in
      _add_new_text_input_to_json pa_json index new_text_input) ;;
    _add_optional_tags_to_vllm_json
      pa_json index add_model_name add_stream model_name).

Definition _populate_trtllm_output_json
  (dataset_json : json)
  (system_role_headers user_role_headers text_input_headers : list string)
  (add_model_name add_stream : bool) (model_name : string) : res json :=
  let pa_json := _create_empty_trtllm_pa_json in
  rs <- getitem "rows" dataset_json ;;
  entries <- iterate rs ;;
  for_each (enumerate entries) pa_json (fun pa_json '(index, entry) =>
    pa_json <- at_key "data"
                 (append (JObj [("text_input", JList [JStr ""])])) pa_json ;;
    cells <- items entry ;;
    pa_json <- for_each cells pa_json (fun pa_json '(header, content) =>
      let new_text_input := _create_new_text_input
                              header system_role_headers user_role_headers
                              text_input_headers content in
      _add_new_text_input_to_json pa_json index new_text_input) ;;
    pa_json <- _add_required_tags_to_trtllm_json pa_json index ;;
    _add_optional_tags_to_trtllm_json
      pa_json index add_model_name add_stream model_name).

Definition _convert_generic_json_to_openai_chat_completions_format
  (dataset_json : json) (add_model_name add_stream : bool)
  (model_name : string) : res json :=
  roles <- _determine_json_feature_roles dataset_json ;;
  let '(system_role_headers, user_role_headers, _) := roles in
  _populate_openai_chat_completions_output_json
    dataset_json system_role_headers user_role_headers
    add_model_name add_stream model_name.

Definition _convert_generic_json_to_openai_completions_format
  (dataset_json : json) (add_model_name add_stream : bool)
  (model_name : string) : res json :=
  roles <- _determine_json_feature_roles dataset_json ;;
  let '(system_role_headers, user_role_headers, text_input_headers) := roles in
  _populate_openai_completions_output_json
    dataset_json system_role_headers user_role_headers text_input_headers
    add_model_name add_stream model_name.

Definition _convert_generic_json_to_vllm_format
  (dataset_json : json) (add_model_name add_stream : bool)
  (model_name : string) : res json :=
  roles <- _determine_json_feature_roles dataset_json ;;
  let '(system_role_headers, user_role_headers, text_input_headers) := roles in
  _populate_vllm_output_json
    dataset_json system_role_headers user_role_headers text_input_headers
    add_model_name add_stream model_name.

Definition _convert_generic_json_to_trtllm_format
  (dataset_json : json) (add_model_name add_stream : bool)
  (model_name : string) : res json :=
  roles <- _determine_json_feature_roles dataset_json ;;
  let '(system_role_headers, user_role_headers, text_input_headers) := roles in
  _populate_trtllm_output_json
    dataset_json system_role_headers user_role_headers text_input_headers
    add_model_name add_stream model_name.

Definition _convert_generic_json_to_output_format
  (output_format : OutputFormat) (generic_dataset : json)
  (add_model_name add_stream : bool) (model_name : string) : res json :=
  match output_format with
  | OPENAI_CHAT_COMPLETIONS =>
      _convert_generic_json_to_openai_chat_completions_format
        generic_dataset add_model_name add_stream model_name
  | OPENAI_COMPLETIONS =>
      _convert_generic_json_to_openai_completions_format
        generic_dataset add_model_name add_stream model_name
  | VLLM =>
      _convert_generic_json_to_vllm_format
        generic_dataset add_model_name add_stream model_name
  | TRTLLM =>
      _convert_generic_json_to_trtllm_format
        generic_dataset add_model_name add_stream model_name
  end.

End Formatting.
End Untyped.

(** A dataset of text cells as the document it is a reading of. *)
Definition row_json (entry : Row) : json :=
  JObj (map (fun hc : string * string => (hc.1, JStr hc.2)) entry).

(** The generic row of one synthetic prompt, as a document and typed. *)
Definition prompt_row_json (prompt : string) : json :=
  JObj [("text_input", JStr prompt)].

Definition prompt_row (prompt : string) : Row := [("text_input", prompt)].

(** [s] contains a single quote. *)
Fixpoint has_quote (s : string) : bool :=
  match s with
  | EmptyString => false
  | String c s' => Ascii.eqb c "'" || has_quote s'
  end.

(** ** The orchestrator and its collaborators

    [create_llm_inputs] talks to three things outside this module: Python's
    global random generator, the synthetic prompt generator, and the network.
    They are parameters here.  The run threads a [world]: the state of the
    random generator and the log of what was sent out. *)

Inductive reply : Type :=
| Response (body : option json)        (* the server answered *)
| RequestFailed (exception : pyobj).   (* [requests.get] raised *)

Inductive event : Type :=
| HttpGet (url : string)
| FileWrite (filename : string) (content : json).

Record world (rng : Type) : Type := {
  generator : rng;
  log : list event
}.
Arguments generator {rng} w.
Arguments log {rng} w.

(** Collaborators that do nothing: a generator without state that returns an
    empty prompt, a network on which every request fails to connect, and a
    rendering of lists and dicts that prints nothing. *)
Definition still_seed (n : Z) : unit := tt.
Definition still_generator (mean stddev expected : Z) (g : unit)
  : (string * Z) * unit := (("", 0%Z), g).
Definition offline (url : string) : reply :=
  RequestFailed (PExc [PExc [PText
    "HTTPSConnectionPool(host='datasets-server.huggingface.co', port=443): Max retries exceeded"]]).
Definition blank_repr (v : json) : string := "".
Definition fresh_world : world unit := {| generator := tt; log := [] |}.

(** A server that answers every request with one wrapped row, and one that
    answers every request with an error document. *)
Definition one_row_server (url : string) : reply :=
  Response (Some (JObj
    [("features", JList [JObj [("name", JStr "system_prompt")];
                         JObj [("name", JStr "question")]]);
     ("rows", JList [JObj [("row", JObj [("system_prompt", JStr "be brief");
                                         ("question", JStr "why?")])]])])).

(** A server whose one row has an integer under an unclassified header and
    [None] under a classified one. *)
Definition mixed_server (url : string) : reply :=
  Response (Some (JObj
    [("features", JList [JObj [("name", JStr "id")];
                         JObj [("name", JStr "system_prompt")];
                         JObj [("name", JStr "question")]]);
     ("rows", JList [JObj [("row_idx", JInt 0);
                           ("row", JObj [("id", JInt 7);
                                         ("system_prompt", JNull);
                                         ("question", JStr "why?")])]])])).

Definition failing_server (url : string) : reply :=
  Response (Some (JObj [("error", JStr "The dataset does not exist.")])).

Section Collaborators.

(** The state of [random], and the state [random.seed(n)] leaves it in. *)
Variable rng : Type.
Variable seed_state : Z -> rng.

(** [SyntheticPromptGenerator.create_synthetic_prompt(mean, stddev, expected)]:
    it draws from [random] and returns the prompt and its token count. *)
Variable create_synthetic_prompt : Z -> Z -> Z -> rng -> (string * Z) * rng.

(** What [requests.get(url)] meets. *)
Variable requests_get : string -> reply.

(** [genai_perf.constants.DEFAULT_INPUT_DATA_JSON], the output file name. *)
Variable DEFAULT_INPUT_DATA_JSON : string.

(** [str(v)] for a list or a dict [v], see [Untyped.format_value]. *)
Variable repr_of : json -> string.

Definition M (A : Type) : Type := world rng -> res A * world rng.

Definition ret {A} (a : A) : M A := fun w => (Ok a, w).

Definition lift {A} (r : res A) : M A := fun w => (r, w).

Definition bindM {A B} (m : M A) (k : A -> M B) : M B :=
  fun w =>
    match m w with
    | (Ok a, w') => k a w'
    | (Raise e, w') => (Raise e, w')
    end.

Notation "x <~ m ;; k" := (bindM m (fun x => k))
  (at level 100, m at next level, right associativity) : py_scope.

Definition emit (ev : event) : M unit :=
  fun w => (Ok tt, {| generator := generator w; log := log w ++ [ev] |}).

Fixpoint for_eachM {S A} (xs : list A) (s : S) (body : S -> A -> M S) : M S :=
  match xs with
  | [] => ret s
  | x :: xs' => s' <~ body s x ;; for_eachM xs' s' body
  end.

(** [range(0, n)] *)
Definition range (n : Z) : list Z := map Z.of_nat (seq 0 (Z.to_nat n)).

Definition _query_server (configured_url : string) : M (option json) :=
  _ <~ emit (HttpGet configured_url) ;;
  match requests_get configured_url with
  | Response body => ret body
  | RequestFailed e =>
      error_message <~ lift (_create_error_message e) ;;
      lift (Raise (GenAIPerfException (JStr error_message)))
  end.

Definition _download_dataset (configured_url : string)
  (starting_index length : pyarg) : M (option json) :=
  _query_server configured_url.

Definition _get_input_dataset_from_url (dataset_name : string)
  (starting_index length : pyarg) : M (option json) :=
  url <~ lift (_resolve_url dataset_name) ;;
  let configured_url := _create_configured_url url starting_index length in
  _download_dataset configured_url starting_index length.

Definition _create_synthetic_prompt
  (prompt_tokens_mean prompt_tokens_stddev expected_output_tokens random_seed : Z)
  : M (string * Z) :=
  fun w =>
    (* random.seed(random_seed) *)
    let g := seed_state random_seed in
    let '(result, g') :=
      create_synthetic_prompt
        prompt_tokens_mean prompt_tokens_stddev expected_output_tokens g in
    (Ok result, {| generator := g'; log := log w |}).

Definition _get_input_dataset_from_synthetic
  (prompt_tokens_mean prompt_tokens_stddev expected_output_tokens
     num_of_output_prompts random_seed : Z) : M json :=
  let dataset_json :=
    JObj [("features", JList [JObj [("name", JStr "text_input")]]);
          ("rows", JList [])] in
  for_eachM (range num_of_output_prompts) dataset_json (fun dataset_json index =>
    result <~ _create_synthetic_prompt
        prompt_tokens_mean prompt_tokens_stddev expected_output_tokens
        (random_seed + index) ;;
    let '(synthetic_prompt, _) := result in
    lift (at_key "rows"
            (append (JObj [("row", JObj [("text_input", JStr synthetic_prompt)])]))
            dataset_json)).

(** The prompt generated right after [random.seed(n)]. *)
Definition prompt_under
  (prompt_tokens_mean prompt_tokens_stddev expected_output_tokens n : Z) : string :=
  (create_synthetic_prompt
     prompt_tokens_mean prompt_tokens_stddev expected_output_tokens
     (seed_state n)).1.1.

Definition synthetic_row (prompt : string) : json :=
  JObj [("row", JObj [("text_input", JStr prompt)])].

(** [open] and [write] are taken to succeed. *)
Definition _write_json_to_file (json_in_pa_format : json) : M unit :=
  emit (FileWrite DEFAULT_INPUT_DATA_JSON json_in_pa_format).

Definition create_llm_inputs
  (input_type : InputType) (output_format : OutputFormat)
  (dataset_name model_name input_filename : string)
  (starting_index length : pyarg)
  (prompt_tokens_mean prompt_tokens_stddev expected_output_tokens random_seed
     num_of_output_prompts : Z)
  (add_model_name add_stream : bool) : M json :=
  _ <~ lift (_check_for_valid_args input_type dataset_name starting_index length) ;;
  generic_dataset_json <~
    match input_type with
    | URL =>
        dataset <~ _get_input_dataset_from_url dataset_name starting_index length ;;
        lift (_convert_input_url_dataset_to_generic_json dataset)
    | SYNTHETIC =>
        dataset <~ _get_input_dataset_from_synthetic
          prompt_tokens_mean prompt_tokens_stddev expected_output_tokens
          num_of_output_prompts random_seed ;;
        lift (_convert_input_synthetic_dataset_to_generic_json dataset)
    | FILE =>
        lift (Raise (GenAIPerfException (JStr
          "Using a file to supply LLM Input is not supported at this time")))
    end ;;
  json_in_pa_format <~ lift (Untyped._convert_generic_json_to_output_format
    repr_of output_format generic_dataset_json
    add_model_name add_stream model_name) ;;
  _ <~ _write_json_to_file json_in_pa_format ;;
  ret json_in_pa_format.

(** The middle stage of [create_llm_inputs]: fetching or generating the
    dataset and normalising it. *)
Definition acquire_generic_dataset (input_type : InputType)
  (dataset_name : string) (starting_index length : pyarg)
  (prompt_tokens_mean prompt_tokens_stddev expected_output_tokens random_seed
     num_of_output_prompts : Z) : M json :=
  match input_type with
  | URL =>
      dataset <~ _get_input_dataset_from_url dataset_name starting_index length ;;
      lift (_convert_input_url_dataset_to_generic_json dataset)
  | SYNTHETIC =>
      dataset <~ _get_input_dataset_from_synthetic
        prompt_tokens_mean prompt_tokens_stddev expected_output_tokens
        num_of_output_prompts random_seed ;;
      lift (_convert_input_synthetic_dataset_to_generic_json dataset)
  | FILE =>
      lift (Raise (GenAIPerfException (JStr
        "Using a file to supply LLM Input is not supported at this time")))
  end.

(** The world after [_write_json_to_file]. *)
Definition written (w : world rng) (content : json) : world rng :=
  {| generator := generator w;
     log := log w ++ [FileWrite DEFAULT_INPUT_DATA_JSON content] |}.

(** * Properties *)

(** ** Path updates on the payload under construction *)

Lemma lookup_last_app (done : list json) (cur : json) :
  (done ++ [cur]) !! length done = Some cur.
Proof. by rewrite list_lookup_middle. Qed.

Lemma insert_last_app (done : list json) (cur new : json) :
  <[length done := new]> (done ++ [cur]) = done ++ [new].
Proof.
  rewrite insert_app_r_alt; [|lia]. by rewrite Nat.sub_diag.
Qed.

Lemma at_data_append (done : list json) (v : json) :
  at_key "data" (append v) (pa done) = Ok (pa (done ++ [v])).
Proof. reflexivity. Qed.

Lemma getitem_data (l : list json) : getitem "data" (pa l) = Ok (JList l).
Proof. reflexivity. Qed.

Lemma setitem_data (l : list json) (v : list json) :
  setitem "data" (JList v) (pa l) = Ok (pa v).
Proof. reflexivity. Qed.

Lemma getidx_last (done : list json) (cur : json) :
  getidx (length done) (JList (done ++ [cur])) = Ok cur.
Proof. unfold getidx. by rewrite lookup_last_app. Qed.

Lemma setidx_last (done : list json) (cur new : json) :
  setidx (length done) new (JList (done ++ [cur])) = Ok (JList (done ++ [new])).
Proof. unfold setidx. by rewrite lookup_last_app, insert_last_app. Qed.

Lemma at_data_last (done : list json) (cur : json) (f : json -> res json) :
  at_key "data" (at_idx (length done) f) (pa (done ++ [cur]))
  = (cur' <- f cur ;; Ok (pa (done ++ [cur']))).
Proof.
  unfold at_key, at_idx. rewrite getitem_data. cbn [bind].
  rewrite getidx_last. cbn [bind].
  destruct (f cur) as [cur'|e]; cbn [bind]; [|done].
  rewrite setidx_last. cbn [bind]. apply setitem_data.
Qed.

Lemma get_data_last (done : list json) (cur : json) {A} (k : json -> res A) :
  (d <- getitem "data" (pa (done ++ [cur])) ;; p <- getidx (length done) d ;; k p)
  = k cur.
Proof. rewrite getitem_data. cbn [bind]. by rewrite getidx_last. Qed.

(** The loop over [enumerate(rows)], once its body is known to append the
    payload [f row] of the row at hand. *)
Lemma for_each_rows (f : Row -> json) (body : json -> nat * Row -> res json) :
  (forall done row,
      body (pa done) (length done, row) = Ok (pa (done ++ [f row]))) ->
  forall (rs : list Row) (done : list json),
    for_each (combine (seq (length done) (length rs)) rs) (pa done) body
    = Ok (pa (done ++ map f rs)).
Proof.
  intros Hbody rs. induction rs as [|row rs IH]; intros done; cbn.
  - by rewrite app_nil_r.
  - rewrite Hbody. cbn [bind].
    specialize (IH (done ++ [f row])).
    rewrite length_app in IH. cbn in IH.
    replace (length done + 1) with (S (length done)) in IH by lia.
    rewrite IH. by rewrite <- app_assoc.
Qed.

Lemma for_each_enumerate (f : Row -> json) (body : json -> nat * Row -> res json) :
  (forall done row,
      body (pa done) (length done, row) = Ok (pa (done ++ [f row]))) ->
  forall rs : list Row,
    for_each (enumerate rs) (pa []) body = Ok (pa (map f rs)).
Proof. intros Hbody rs. apply (for_each_rows f body Hbody rs []). Qed.

(** ** The inner loops over [entry.items()] *)

Lemma row_messages_cons (sys usr : list string) (hc : string * string) (entry : Row) :
  row_messages sys usr (hc :: entry)
  = (if emits_message sys usr hc then [message_of sys hc] else [])
    ++ row_messages sys usr entry.
Proof.
  unfold row_messages. cbn [List.filter].
  by destruct (emits_message sys usr hc).
Qed.

Lemma new_message_emitted (sys usr : list string) (h c : string) :
  _create_new_openai_chat_completions_message h sys usr c
  = if emits_message sys usr (h, c) then message_of sys (h, c) else JObj [].
Proof.
  unfold _create_new_openai_chat_completions_message, emits_message, message_of.
  cbn [truthy fst snd]. rewrite negb_involutive.
  destruct (String.eqb c ""); cbn [negb andb]; [done|].
  by destruct (in_list h sys), (in_list h usr).
Qed.

Lemma add_message_last (done ms : list json) (m : json) :
  _add_new_message_to_json
    (pa (done ++ [chat_cur [("messages", JList ms)]])) (length done) m
  = Ok (pa (done ++ [chat_cur [("messages",
                                JList (if truthy m then ms ++ [m] else ms))]])).
Proof.
  unfold _add_new_message_to_json.
  destruct (truthy m); [|done].
  by rewrite at_data_last.
Qed.

Lemma messages_loop (sys usr : list string) (done : list json) (entry : Row) :
  forall ms : list json,
    for_each entry (pa (done ++ [chat_cur [("messages", JList ms)]]))
      (fun pa_json '(header, content) =>
         _add_new_message_to_json pa_json (length done)
           (_create_new_openai_chat_completions_message header sys usr content))
    = Ok (pa (done ++ [chat_cur [("messages",
                                  JList (ms ++ row_messages sys usr entry))]])).
Proof.
  induction entry as [|[h c] entry IH]; intros ms; cbn [for_each].
  - by rewrite app_nil_r.
  - rewrite add_message_last. cbn [bind]. rewrite IH.
    rewrite row_messages_cons, new_message_emitted.
    destruct (emits_message sys usr (h, c)); cbn [truthy message_of].
    + by rewrite <- app_assoc.
    + done.
Qed.

Lemma add_text_input_last (done : list json) (t c : string) :
  _add_new_text_input_to_json (pa (done ++ [text_cur t []])) (length done) c
  = Ok (pa (done ++ [text_cur (join_text t c) []])).
Proof.
  unfold _add_new_text_input_to_json, join_text. cbn [truthy].
  destruct (String.eqb c ""); cbn [negb]; [done|].
  rewrite get_data_last. cbn -[at_key pa].
  destruct (String.eqb t ""); cbn -[at_key pa]; by rewrite at_data_last.
Qed.

Lemma add_prompt_last (done : list json) (t c : string) :
  _add_new_prompt_to_json
    (pa (done ++ [chat_cur [("prompt", JList [JStr t])]])) (length done) c
  = Ok (pa (done ++ [chat_cur [("prompt", JList [JStr (join_text t c)])]])).
Proof.
  unfold _add_new_prompt_to_json, join_text. cbn [truthy].
  destruct (String.eqb c ""); cbn [negb]; [done|].
  rewrite get_data_last. cbn -[at_key pa].
  destruct (String.eqb t ""); cbn -[at_key pa]; by rewrite at_data_last.
Qed.

Lemma text_input_loop (sys usr txt : list string) (done : list json) (entry : Row) :
  forall t : string,
    for_each entry (pa (done ++ [text_cur t []]))
      (fun pa_json '(header, content) =>
         _add_new_text_input_to_json pa_json (length done)
           (_create_new_text_input header sys usr txt content))
    = Ok (pa (done ++ [text_cur
           (fold_left join_text (map (contribution sys usr txt) entry) t) []])).
Proof.
  induction entry as [|[h c] entry IH]; intros t; cbn [for_each]; [done|].
  rewrite add_text_input_last. cbn [bind]. by rewrite IH.
Qed.

Lemma prompt_loop (sys usr txt : list string) (done : list json) (entry : Row) :
  forall t : string,
    for_each entry (pa (done ++ [chat_cur [("prompt", JList [JStr t])]]))
      (fun pa_json '(header, content) =>
         _add_new_prompt_to_json pa_json (length done)
           (_create_new_prompt header sys usr txt content))
    = Ok (pa (done ++ [chat_cur [("prompt", JList [JStr
           (fold_left join_text (map (contribution sys usr txt) entry) t)])]])).
Proof.
  induction entry as [|[h c] entry IH]; intros t; cbn [for_each]; [done|].
  rewrite add_prompt_last. cbn [bind]. by rewrite IH.
Qed.

(** ** Tags *)

Lemma setitem_chat_cur (k : string) (v : json) (d : list (string * json)) :
  at_key "payload" (at_idx 0 (setitem k v)) (chat_cur d)
  = Ok (chat_cur (dict_set k v d)).
Proof. reflexivity. Qed.

Lemma optional_openai_last (done : list json) (k : string) (v : json)
  (add_model_name add_stream : bool) (model_name : string) :
  String.eqb "model" k = false -> String.eqb "stream" k = false ->
  _add_optional_tags_to_openai_json
    (pa (done ++ [chat_cur [(k, v)]])) (length done)
    add_model_name add_stream model_name
  = Ok (pa (done ++ [chat_cur
         ((k, v) :: optional_openai add_model_name add_stream model_name)])).
Proof.
  intros Hm Hs. unfold _add_optional_tags_to_openai_json, optional_openai.
  destruct add_model_name, add_stream; cbn [bind];
    rewrite ?at_data_last, ?setitem_chat_cur; cbn [bind dict_set];
    rewrite ?Hm, ?Hs; cbn [bind dict_set];
    rewrite ?at_data_last, ?setitem_chat_cur; cbn [bind dict_set];
    rewrite ?Hm, ?Hs; done.
Qed.

Lemma optional_vllm_last (done : list json) (t : string)
  (add_model_name add_stream : bool) (model_name : string) :
  _add_optional_tags_to_vllm_json
    (pa (done ++ [text_cur t []])) (length done)
    add_model_name add_stream model_name
  = Ok (pa (done ++ [text_cur t
         (optional_listed add_model_name add_stream model_name)])).
Proof.
  unfold _add_optional_tags_to_vllm_json, optional_listed.
  destruct add_model_name, add_stream; cbn [bind];
    rewrite ?at_data_last; cbn -[at_key pa]; rewrite ?at_data_last; done.
Qed.

Lemma required_trtllm_last (done : list json) (t : string) :
  _add_required_tags_to_trtllm_json (pa (done ++ [text_cur t []])) (length done)
  = Ok (pa (done ++ [text_cur t [("max_tokens", JList [JInt 256])]])).
Proof. unfold _add_required_tags_to_trtllm_json. by rewrite at_data_last. Qed.

Lemma optional_trtllm_last (done : list json) (t : string)
  (add_model_name add_stream : bool) (model_name : string) :
  _add_optional_tags_to_trtllm_json
    (pa (done ++ [text_cur t [("max_tokens", JList [JInt 256])]])) (length done)
    add_model_name add_stream model_name
  = Ok (pa (done ++ [text_cur t
         (("max_tokens", JList [JInt 256])
          :: optional_listed add_model_name add_stream model_name)])).
Proof.
  unfold _add_optional_tags_to_trtllm_json, optional_listed.
  destruct add_model_name, add_stream; cbn [bind];
    rewrite ?at_data_last; cbn -[at_key pa]; rewrite ?at_data_last; done.
Qed.

(** ** Each formatter maps its per-row closed form over the rows *)

(** Enter the loop over [enumerate(rows)]: [done] are the payloads of the
    rows already handled, [entry] is the row at hand, whose empty payload has
    just been appended. *)
Tactic Notation "enter_row_loop" ident(done) ident(entry) :=
  apply for_each_enumerate; intros done entry;
  rewrite at_data_append; cbn [bind].

Lemma populate_openai_chat_completions_map (ds : GenericDataset)
  (sys usr : list string) (add_model_name add_stream : bool) (model_name : string) :
  _populate_openai_chat_completions_output_json
    ds sys usr add_model_name add_stream model_name
  = Ok (pa (map (chat_payload sys usr add_model_name add_stream model_name)
                (rows ds))).
Proof.
  unfold _populate_openai_chat_completions_output_json.
  enter_row_loop done entry.
  rewrite at_data_last. cbn [bind at_key at_idx getitem getidx dict_get String.eqb
    Ascii.eqb Bool.eqb setitem setidx append dict_set app].
  change (JObj [("payload", JList [JObj [("messages", JList [])]])])
    with (chat_cur [("messages", JList [])]).
  rewrite (messages_loop sys usr done entry []). cbn [bind app].
  by rewrite optional_openai_last.
Qed.

Lemma populate_openai_completions_map (ds : GenericDataset)
  (sys usr txt : list string) (add_model_name add_stream : bool)
  (model_name : string) :
  _populate_openai_completions_output_json
    ds sys usr txt add_model_name add_stream model_name
  = Ok (pa (map (completions_payload sys usr txt
                   add_model_name add_stream model_name) (rows ds))).
Proof.
  unfold _populate_openai_completions_output_json.
  enter_row_loop done entry.
  rewrite at_data_last. cbn [bind at_key at_idx getitem getidx dict_get String.eqb
    Ascii.eqb Bool.eqb setitem setidx append dict_set app].
  change (JObj [("payload", JList [JObj [("prompt", JList [JStr ""])]])])
    with (chat_cur [("prompt", JList [JStr ""])]).
  rewrite (prompt_loop sys usr txt done entry ""). cbn [bind].
  by rewrite optional_openai_last.
Qed.

Lemma populate_vllm_map (ds : GenericDataset)
  (sys usr txt : list string) (add_model_name add_stream : bool)
  (model_name : string) :
  _populate_vllm_output_json ds sys usr txt add_model_name add_stream model_name
  = Ok (pa (map (vllm_payload sys usr txt add_model_name add_stream model_name)
                (rows ds))).
Proof.
  unfold _populate_vllm_output_json.
  enter_row_loop done entry.
  change (JObj [("text_input", JList [JStr ""])]) with (text_cur "" []).
  rewrite (text_input_loop sys usr txt done entry ""). cbn [bind].
  by rewrite optional_vllm_last.
Qed.

Lemma populate_trtllm_map (ds : GenericDataset)
  (sys usr txt : list string) (add_model_name add_stream : bool)
  (model_name : string) :
  _populate_trtllm_output_json ds sys usr txt add_model_name add_stream model_name
  = Ok (pa (map (trtllm_payload sys usr txt add_model_name add_stream model_name)
                (rows ds))).
Proof.
  unfold _populate_trtllm_output_json.
  enter_row_loop done entry.
  change (JObj [("text_input", JList [JStr ""])]) with (text_cur "" []).
  rewrite (text_input_loop sys usr txt done entry ""). cbn [bind].
  rewrite required_trtllm_last. cbn [bind].
  by rewrite optional_trtllm_last.
Qed.

Lemma populate_map (output_format : OutputFormat) (ds : GenericDataset)
  (sys usr txt : list string) (add_model_name add_stream : bool)
  (model_name : string) :
  populate output_format ds sys usr txt add_model_name add_stream model_name
  = Ok (pa (map (row_payload output_format sys usr txt
                   add_model_name add_stream model_name) (rows ds))).
Proof.
  destruct output_format; cbn [populate row_payload].
  - apply populate_openai_chat_completions_map.
  - apply populate_openai_completions_map.
  - apply populate_trtllm_map.
  - apply populate_vllm_map.
Qed.

(** ** Role classification in closed form *)

Lemma user_and_text_input_exclusive (f : string) :
  in_list f USER_ROLE_LIST = true -> in_list f TEXT_INPUT_LIST = true -> False.
Proof.
  unfold in_list, USER_ROLE_LIST, TEXT_INPUT_LIST. cbn [existsb].
  rewrite !orb_false_r. intros Hu Ht.
  apply String.eqb_eq in Ht. subst f. discriminate Hu.
Qed.

Lemma classify_feature_filter (sys usr txt : list string) (f : string) :
  classify_feature (sys, usr, txt) f
  = (sys ++ List.filter is_system_feature [f],
     usr ++ List.filter is_user_feature [f], txt).
Proof.
  unfold classify_feature, is_system_feature, is_user_feature. cbn [List.filter].
  destruct (in_list f SYSTEM_ROLE_LIST);
    destruct (in_list f USER_ROLE_LIST) eqn:Hu;
    destruct (in_list f TEXT_INPUT_LIST) eqn:Ht;
    cbn [orb]; rewrite ?app_nil_r; try done;
    destruct (user_and_text_input_exclusive f Hu Ht).
Qed.

Lemma classify_fold (fs : list string) :
  forall sys usr txt : list string,
    fold_left classify_feature fs (sys, usr, txt)
    = (sys ++ List.filter is_system_feature fs,
       usr ++ List.filter is_user_feature fs, txt).
Proof.
  induction fs as [|f fs IH]; intros sys usr txt; cbn [fold_left].
  - by rewrite !app_nil_r.
  - rewrite classify_feature_filter, IH.
    change (f :: fs) with ([f] ++ fs).
    by rewrite !List.filter_app, !app_assoc.
Qed.

Lemma determine_roles_filter (ds : GenericDataset) :
  _determine_json_feature_roles ds
  = (List.filter is_system_feature (default [] (features ds)),
     List.filter is_user_feature (default [] (features ds)), []).
Proof.
  unfold _determine_json_feature_roles.
  destruct (features ds) as [fs|]; [|done].
  by rewrite classify_fold.
Qed.

Lemma in_list_elem_of (x : string) (l : list string) :
  in_list x l = true <-> x ∈ l.
Proof.
  unfold in_list. rewrite existsb_exists, list_elem_of_In. split.
  - intros (y & Hy & Heq). apply String.eqb_eq in Heq. by subst.
  - intros Hx. exists x. split; [done|]. apply String.eqb_refl.
Qed.

Lemma in_list_filter (x : string) (p : string -> bool) (l : list string) :
  in_list x (List.filter p l) = p x && in_list x l.
Proof.
  apply eq_true_iff_eq.
  rewrite andb_true_iff, !in_list_elem_of, !list_elem_of_In, filter_In.
  tauto.
Qed.

Lemma convert_output_format_map (output_format : OutputFormat)
  (ds : GenericDataset) (add_model_name add_stream : bool) (model_name : string) :
  _convert_generic_json_to_output_format
    output_format ds add_model_name add_stream model_name
  = Ok (pa (map (row_payload output_format
                   (List.filter is_system_feature (default [] (features ds)))
                   (List.filter is_user_feature (default [] (features ds))) []
                   add_model_name add_stream model_name) (rows ds))).
Proof.
  destruct output_format; cbn [_convert_generic_json_to_output_format row_payload].
  - unfold _convert_generic_json_to_openai_chat_completions_format.
    rewrite determine_roles_filter. apply populate_openai_chat_completions_map.
  - unfold _convert_generic_json_to_openai_completions_format.
    rewrite determine_roles_filter. apply populate_openai_completions_map.
  - unfold _convert_generic_json_to_trtllm_format.
    rewrite determine_roles_filter. apply populate_trtllm_map.
  - unfold _convert_generic_json_to_vllm_format.
    rewrite determine_roles_filter. apply populate_vllm_map.
Qed.

(** C7. Role classification never fails and reads the feature names only:
    its three lists are the system-vocabulary features, the user-vocabulary
    features together with [text_input], and the empty list, each in feature
    order.  Hence every classified name belongs to the fixed vocabulary, a
    [text_input] feature lands in the user-role list, and the text-input role
    list is empty on every input. *)
Theorem role_classification_total (ds : GenericDataset) :
  exists sys usr : list string,
    _determine_json_feature_roles ds = (sys, usr, [])
    /\ sys = List.filter (fun f => String.eqb f "system_prompt")
               (default [] (features ds))
    /\ usr = List.filter (fun f => String.eqb f "question"
                                   || String.eqb f "article"
                                   || String.eqb f "text_input")
               (default [] (features ds))
    /\ Forall (fun name => name ∈ VOCABULARY) (sys ++ usr)
    /\ in_list "text_input" usr = in_list "text_input" (default [] (features ds))
    /\ in_list "text_input" sys = false.
Proof.
  exists (List.filter is_system_feature (default [] (features ds))),
         (List.filter is_user_feature (default [] (features ds))).
  split; [apply determine_roles_filter|].
  split; [apply List.filter_ext; intros f; unfold is_system_feature, in_list;
          cbn; by rewrite orb_false_r|].
  split; [apply List.filter_ext; intros f; unfold is_user_feature, in_list;
          cbn; by rewrite !orb_false_r|].
  split; [|split].
  - apply Forall_app. split; apply List.Forall_forall; intros name Hin;
      apply filter_In in Hin as [_ Hin].
    + apply in_list_elem_of. revert Hin.
      unfold is_system_feature, in_list. cbn [existsb SYSTEM_ROLE_LIST VOCABULARY].
      by destruct (String.eqb name "system_prompt").
    + apply in_list_elem_of. revert Hin.
      unfold is_user_feature, in_list.
      cbn [existsb USER_ROLE_LIST TEXT_INPUT_LIST VOCABULARY].
      by destruct (String.eqb name "system_prompt"),
        (String.eqb name "question"), (String.eqb name "article"),
        (String.eqb name "text_input").
  - by rewrite in_list_filter.
  - by rewrite in_list_filter.
Qed.

Lemma lookup_map {A B} (f : A -> B) (l : list A) (i : nat) :
  map f l !! i = f <$> l !! i.
Proof.
  revert i. induction l as [|x l IH]; intros [|i]; cbn; auto.
Qed.

Lemma Forall2_map_self {A B} (P : A -> B -> Prop) (f : A -> B) (l : list A) :
  (forall x, P x (f x)) -> Forall2 P l (map f l).
Proof. intros HP. induction l; cbn; constructor; auto. Qed.

Lemma text_field_row_payload (output_format : OutputFormat)
  (sys usr txt : list string) (add_model_name add_stream : bool)
  (model_name : string) (entry : Row) :
  output_format ∈ TEXT_FORMATS ->
  text_field output_format
    (row_payload output_format sys usr txt add_model_name add_stream model_name entry)
  = Ok (JStr (row_text sys usr txt entry)).
Proof.
  unfold TEXT_FORMATS. intros Hin.
  destruct output_format; [|done..].
  exfalso. apply list_elem_of_In in Hin. cbn in Hin.
  destruct Hin as [H|[H|[H|[]]]]; discriminate H.
Qed.

(** C1. Under each of the four formatters, with any role sets and with the
    role sets of the classifier alike, the [data] list of the returned
    collection has one payload per row, in row order, and the payload at
    index [i] is a function ([row_payload]) of the row at index [i], the role
    sets, the two flags and the model name alone. *)
Theorem payload_per_row (output_format : OutputFormat) (ds : GenericDataset)
  (add_model_name add_stream : bool) (model_name : string) :
  (forall sys usr txt : list string, exists payloads : list json,
      populate output_format ds sys usr txt add_model_name add_stream model_name
      = Ok (JObj [("data", JList payloads)])
      /\ length payloads = length (rows ds)
      /\ forall i : nat,
           payloads !! i
           = row_payload output_format sys usr txt
               add_model_name add_stream model_name <$> rows ds !! i)
  /\ exists (sys usr : list string) (payloads : list json),
      _determine_json_feature_roles ds = (sys, usr, [])
      /\ _convert_generic_json_to_output_format
           output_format ds add_model_name add_stream model_name
         = Ok (JObj [("data", JList payloads)])
      /\ length payloads = length (rows ds)
      /\ forall i : nat,
           payloads !! i
           = row_payload output_format sys usr []
               add_model_name add_stream model_name <$> rows ds !! i.
Proof.
  split.
  - intros sys usr txt. eexists. split; [apply populate_map|].
    split; [apply length_map|]. intros i. apply lookup_map.
  - eexists _, _, _. split; [apply determine_roles_filter|].
    split; [apply convert_output_format_map|].
    split; [apply length_map|]. intros i. apply lookup_map.
Qed.

(** C2. For the completions, vllm and trtllm formatters the text field of
    every row's payload is the left fold of [join_text] over the row's
    contributions in stored order, starting from the empty string: an empty
    contribution leaves the field as it is, the first non-empty one is taken
    verbatim, every later non-empty one is appended after exactly one space.
    [a: "hello", b: "world"] gives ["hello world"]; [a: "", b: "world"] gives
    ["world"]. *)
Theorem text_field_is_fold :
  Forall (fun output_format =>
    (forall (ds : GenericDataset) (sys usr txt : list string)
            (add_model_name add_stream : bool) (model_name : string),
        exists payloads : list json,
          populate output_format ds sys usr txt
            add_model_name add_stream model_name
          = Ok (JObj [("data", JList payloads)])
          /\ Forall2 (fun entry p =>
               text_field output_format p
               = Ok (JStr (fold_left
                       (fun acc c =>
                          if String.eqb c "" then acc
                          else if String.eqb acc "" then c
                          else String.append acc (String.append " " c))
                       (map (fun hc : string * string =>
                               if in_list hc.1 sys || in_list hc.1 usr
                                  || in_list hc.1 txt
                               then hc.2 else "") entry)
                       "")))
               (rows ds) payloads)
    /\ (forall add_model_name add_stream model_name, exists p : json,
          populate output_format
            {| features := None; rows := [[("a", "hello"); ("b", "world")]] |}
            ["a"] ["b"] [] add_model_name add_stream model_name
          = Ok (JObj [("data", JList [p])])
          /\ text_field output_format p = Ok (JStr "hello world"))
    /\ (forall add_model_name add_stream model_name, exists p : json,
          populate output_format
            {| features := None; rows := [[("a", ""); ("b", "world")]] |}
            ["a"] ["b"] [] add_model_name add_stream model_name
          = Ok (JObj [("data", JList [p])])
          /\ text_field output_format p = Ok (JStr "world")))
    TEXT_FORMATS.
Proof.
  apply List.Forall_forall. intros output_format Hin.
  apply list_elem_of_In in Hin.
  split; [|split].
  - intros ds sys usr txt add_model_name add_stream model_name.
    eexists. split; [apply populate_map|].
    apply Forall2_map_self. intros entry.
    by rewrite text_field_row_payload.
  - intros add_model_name add_stream model_name.
    eexists. rewrite populate_map. split; [reflexivity|].
    by rewrite text_field_row_payload.
  - intros add_model_name add_stream model_name.
    eexists. rewrite populate_map. split; [reflexivity|].
    by rewrite text_field_row_payload.
Qed.

Lemma messages_of_chat_payload (sys usr : list string)
  (add_model_name add_stream : bool) (model_name : string) (entry : Row) :
  messages_of (chat_payload sys usr add_model_name add_stream model_name entry)
  = Ok (JList (row_messages sys usr entry)).
Proof. reflexivity. Qed.

Lemma row_messages_app (sys usr : list string) (before after : Row) :
  row_messages sys usr (before ++ after)
  = row_messages sys usr before ++ row_messages sys usr after.
Proof. unfold row_messages. by rewrite List.filter_app, map_app. Qed.

(** C3. In the chat-completions formatter the messages of a row are, in
    order, one message per header that is in the system or user role and has
    non-empty content.  A header with empty content yields the empty dict,
    which is never appended: a row whose single header has empty content gives
    a well-formed payload with an empty messages list. *)
Theorem blank_content_no_message (ds : GenericDataset) (sys usr : list string)
  (add_model_name add_stream : bool) (model_name : string) :
  (exists payloads : list json,
     _populate_openai_chat_completions_output_json
       ds sys usr add_model_name add_stream model_name
     = Ok (JObj [("data", JList payloads)])
     /\ Forall2 (fun entry p =>
          messages_of p
          = Ok (JList (map (message_of sys)
                  (List.filter
                     (fun hc : string * string =>
                        negb (String.eqb hc.2 "")
                        && (in_list hc.1 sys || in_list hc.1 usr)) entry))))
          (rows ds) payloads)
  /\ (forall h : string,
        _create_new_openai_chat_completions_message h sys usr "" = JObj []
        /\ _populate_openai_chat_completions_output_json
             {| features := features ds; rows := [[(h, "")]] |}
             sys usr add_model_name add_stream model_name
           = Ok (JObj [("data", JList
               [JObj [("payload", JList
                  [JObj (("messages", JList [])
                         :: optional_openai
                              add_model_name add_stream model_name)])]])]))
  /\ (forall (h : string) (before after : Row),
        _populate_openai_chat_completions_output_json
          {| features := features ds; rows := [before ++ (h, "") :: after] |}
          sys usr add_model_name add_stream model_name
        = _populate_openai_chat_completions_output_json
            {| features := features ds; rows := [before ++ after] |}
            sys usr add_model_name add_stream model_name).
Proof.
  split; [|split].
  - eexists. split; [apply populate_openai_chat_completions_map|].
    apply Forall2_map_self. intros entry.
    by rewrite messages_of_chat_payload.
  - intros h. split; [done|].
    by rewrite populate_openai_chat_completions_map.
  - intros h before after.
    rewrite !populate_openai_chat_completions_map. cbn [rows map].
    unfold chat_payload.
    change (before ++ (h, "") :: after) with (before ++ [(h, "")] ++ after).
    by rewrite !row_messages_app.
Qed.

(** C10. In the chat-completions formatter a header listed in both the
    system and the user role, with non-empty content, yields exactly one
    message, with role ["system"]: the row's messages are those of the
    headers before it, then that one system message, then those of the
    headers after it. *)
Theorem system_role_takes_precedence (sys usr : list string) (h c : string)
  (before after : Row) (fs : option (list string))
  (add_model_name add_stream : bool) (model_name : string) :
  in_list h sys = true -> in_list h usr = true -> c <> "" ->
  _create_new_openai_chat_completions_message h sys usr c
  = JObj [("role", JStr "system"); ("content", JStr c)]
  /\ _populate_openai_chat_completions_output_json
       {| features := fs; rows := [before ++ (h, c) :: after] |}
       sys usr add_model_name add_stream model_name
     = Ok (JObj [("data", JList
         [JObj [("payload", JList
            [JObj (("messages",
                    JList (row_messages sys usr before
                           ++ [JObj [("role", JStr "system");
                                     ("content", JStr c)]]
                           ++ row_messages sys usr after))
                   :: optional_openai add_model_name add_stream model_name)])]])]).
Proof.
  intros Hsys Husr Hc.
  assert (Hne : String.eqb c "" = false) by by apply String.eqb_neq.
  assert (Hmsg : _create_new_openai_chat_completions_message h sys usr c
                 = JObj [("role", JStr "system"); ("content", JStr c)]).
  { unfold _create_new_openai_chat_completions_message. cbn [truthy].
    by rewrite Hne, Hsys. }
  split; [done|].
  rewrite populate_openai_chat_completions_map. cbn [rows map].
  unfold chat_payload.
  change (before ++ (h, c) :: after) with (before ++ [(h, c)] ++ after).
  rewrite !row_messages_app.
  replace (row_messages sys usr [(h, c)])
    with [JObj [("role", JStr "system"); ("content", JStr c)]]; [done|].
  unfold row_messages, emits_message, message_of. cbn [List.filter fst snd].
  rewrite Hne, Hsys. cbn [negb andb orb map fst snd]. by rewrite Hsys.
Qed.

Lemma system_role_takes_precedence_witness :
  _create_new_openai_chat_completions_message
    "question" ["question"] ["question"; "article"] "why?"
  = JObj [("role", JStr "system"); ("content", JStr "why?")]
  /\ _populate_openai_chat_completions_output_json
       {| features := None;
          rows := [[("id", "7")] ++ ("question", "why?") :: [("article", "text")]] |}
       ["question"] ["question"; "article"] true false "gpt2"
     = Ok (JObj [("data", JList
         [JObj [("payload", JList
            [JObj (("messages",
                    JList (row_messages ["question"] ["question"; "article"]
                             [("id", "7")]
                           ++ [JObj [("role", JStr "system");
                                     ("content", JStr "why?")]]
                           ++ row_messages ["question"] ["question"; "article"]
                                [("article", "text")]))
                   :: optional_openai true false "gpt2")])]])]).
Proof.
  apply (system_role_takes_precedence
           ["question"] ["question"; "article"] "question" "why?"
           [("id", "7")] [("article", "text")] None true false "gpt2");
    [reflexivity | reflexivity | discriminate].
Defined.

(** C4. Every payload of the trtllm formatter carries [max_tokens] equal to
    the one-element list [[256]], whatever the dataset, the role sets and the
    two flags.  The key is written right after [text_input] and before the
    optional [model] and [stream] keys, as the key order of the payload
    shows. *)
Theorem trtllm_max_tokens (ds : GenericDataset)
  (add_model_name add_stream : bool) (model_name : string) :
  (forall sys usr txt : list string, exists payloads : list json,
      _populate_trtllm_output_json
        ds sys usr txt add_model_name add_stream model_name
      = Ok (JObj [("data", JList payloads)])
      /\ length payloads = length (rows ds)
      /\ Forall (fun p =>
           getitem "max_tokens" p = Ok (JList [JInt 256])
           /\ exists text : json,
                p = JObj (("text_input", text)
                          :: ("max_tokens", JList [JInt 256])
                          :: (if add_model_name
                              then [("model", JStr model_name)] else [])
                          ++ (if add_stream
                              then [("stream", JList [JBool true])] else [])))
           payloads)
  /\ exists payloads : list json,
      _convert_generic_json_to_output_format
        TRTLLM ds add_model_name add_stream model_name
      = Ok (JObj [("data", JList payloads)])
      /\ length payloads = length (rows ds)
      /\ Forall (fun p => getitem "max_tokens" p = Ok (JList [JInt 256])) payloads.
Proof.
  split.
  - intros sys usr txt. eexists. split; [apply populate_trtllm_map|].
    split; [apply length_map|].
    apply List.Forall_forall. intros p Hin.
    apply in_map_iff in Hin as (entry & <- & _).
    split; [done|]. by eexists.
  - eexists. split; [apply convert_output_format_map|].
    split; [apply length_map|].
    apply List.Forall_forall. intros p Hin.
    by apply in_map_iff in Hin as (entry & <- & _).
Qed.

(** ** Normalisation *)

Lemma features_loop (fl names : list json) :
  Forall2 (fun f n => getitem "name" f = Ok n) fl names ->
  forall acc : list json,
    for_each fl (JObj [("features", JList acc)])
      (fun generic_input_json feature =>
         name <- getitem "name" feature ;;
         at_key "features" (append name) generic_input_json)
    = Ok (JObj [("features", JList (acc ++ names))]).
Proof.
  induction 1 as [|f n fl names Hf _ IH]; intros acc; cbn [for_each].
  - by rewrite app_nil_r.
  - rewrite Hf. cbn [bind].
    change (at_key "features" (append n) (JObj [("features", JList acc)]))
      with (Ok (JObj [("features", JList (acc ++ [n]))])).
    cbn [bind]. rewrite IH. by rewrite <- app_assoc.
Qed.

Lemma rows_loop (pre : list (string * json)) (rl xs : list json) :
  dict_get "rows" pre = None ->
  Forall2 (fun r x => getitem "row" r = Ok x) rl xs ->
  forall acc : list json,
    for_each rl (JObj (pre ++ [("rows", JList acc)]))
      (fun generic_input_json row =>
         r <- getitem "row" row ;;
         at_key "rows" (append r) generic_input_json)
    = Ok (JObj (pre ++ [("rows", JList (acc ++ xs))])).
Proof.
  intros Hpre.
  assert (Hstep : forall acc x,
    at_key "rows" (append x) (JObj (pre ++ [("rows", JList acc)]))
    = Ok (JObj (pre ++ [("rows", JList (acc ++ [x]))]))).
  { intros acc x. unfold at_key, getitem, setitem.
    induction pre as [|[k v] pre IHpre]; [done|].
    cbn [app dict_get dict_set] in *.
    destruct (String.eqb "rows" k); [done|].
    specialize (IHpre Hpre).
    destruct (dict_get "rows" (pre ++ [("rows", JList acc)])); [|done].
    cbn [bind] in *. destruct (append x j); [|done].
    cbn [bind] in *. by inversion IHpre. }
  induction 1 as [|r x rl xs Hr _ IH]; intros acc; cbn [for_each].
  - by rewrite app_nil_r.
  - rewrite Hr. cbn [bind]. rewrite Hstep. cbn [bind].
    rewrite IH. by rewrite <- app_assoc.
Qed.

Lemma for_each_raises {S A} (body : S -> A -> res S) (bad : A -> Prop) (xs : list A) :
  (forall s x, bad x -> exists e, body s x = Raise e) ->
  Exists bad xs ->
  forall s, exists e, for_each xs s body = Raise e.
Proof.
  intros Hbad. induction 1 as [x xs Hx|x xs _ IH]; intros s; cbn [for_each].
  - destruct (Hbad s x Hx) as [e ->]. by exists e.
  - destruct (body s x) as [s'|e]; cbn [bind]; [apply IH|by exists e].
Qed.

Lemma bind_raises {A B} (m : res A) (k : A -> res B) :
  (forall a, exists e, k a = Raise e) -> exists e, bind m k = Raise e.
Proof. intros Hk. destruct m as [a|e]; cbn; [apply Hk|by exists e]. Qed.

(** C6, as the code has it.  For a raw dataset with a list of rows:
    when every row is wrapped as [{"row": r}] and every feature as
    [{"name": n}], normalisation returns the names and the rows, unwrapped
    and in order; with no [features] key it returns, without failing, a
    dataset that has no [features] key either.  A row or a feature without
    its wrapper makes normalisation raise. *)
Theorem normalization_of_wrapped (d : list (string * json)) (rl : list json) :
  dict_get "rows" d = Some (JList rl) ->
  (forall xs : list json,
      Forall2 (fun r x => getitem "row" r = Ok x) rl xs ->
      dict_get "features" d = None ->
      _convert_dataset_to_generic_input_json (JObj d)
      = Ok (JObj [("rows", JList xs)]))
  /\ (forall xs fl names : list json,
        Forall2 (fun r x => getitem "row" r = Ok x) rl xs ->
        dict_get "features" d = Some (JList fl) ->
        Forall2 (fun f n => getitem "name" f = Ok n) fl names ->
        _convert_dataset_to_generic_input_json (JObj d)
        = Ok (JObj [("features", JList names); ("rows", JList xs)]))
  /\ (Exists (lacks "row") rl ->
      exists e, _convert_dataset_to_generic_input_json (JObj d) = Raise e)
  /\ (forall fl : list json,
        dict_get "features" d = Some (JList fl) ->
        Exists (lacks "name") fl ->
        exists e, _convert_dataset_to_generic_input_json (JObj d) = Raise e).
Proof.
  intros Hrows.
  unfold _convert_dataset_to_generic_input_json, _add_features_to_generic_json,
    _add_rows_to_generic_json.
  cbn [has_key bind getitem]. rewrite Hrows.
  split; [|split; [|split]].
  - intros xs Hxs Hnone. rewrite Hnone. cbn [bind setitem dict_set iterate].
    apply (rows_loop [] rl xs eq_refl Hxs []).
  - intros xs fl names Hxs Hfs Hnames. rewrite Hfs.
    cbn [bind setitem dict_set iterate].
    rewrite (features_loop fl names Hnames []). cbn [bind app].
    change (setitem "rows" (JList []) (JObj [("features", JList names)]))
      with (Ok (JObj ([("features", JList names)] ++ [("rows", JList [])]))).
    cbn [bind].
    apply (rows_loop [("features", JList names)] rl xs eq_refl Hxs []).
  - intros Hbare. apply bind_raises. intros g.
    apply bind_raises. intros g'. cbn [bind iterate].
    apply for_each_raises with (bad := lacks "row"); [|done].
    intros s r [e He]. rewrite He. by exists e.
  - intros fl Hfs Hbare. rewrite Hfs. cbn [bind setitem dict_set iterate].
    destruct (for_each_raises
      (fun generic_input_json feature =>
         name <- getitem "name" feature ;;
         at_key "features" (append name) generic_input_json)
      (lacks "name") fl) with (s := JObj [("features", JList [])]) as [e He];
      [|done|].
    + intros s f [e He]. rewrite He. by exists e.
    + rewrite He. by exists e.
Qed.

(** ** The orchestrator *)

(** The three checks run in this order, and the first one that fails decides
    the error. *)
Lemma missing_dataset_name_error (starting_index length : pyarg) :
  _check_for_valid_args URL "" starting_index length
  = Raise (GenAIPerfExceptionOf (GenAIPerfException
      (JStr "Input type is URL, but dataset_name is not specified."))).
Proof. reflexivity. Qed.

Lemma negative_starting_index_error (input_type : InputType)
  (dataset_name : string) (s : Z) (length : pyarg) :
  _check_for_dataset_name_if_input_type_is_url input_type dataset_name = Ok tt ->
  (s < 0)%Z ->
  _check_for_valid_args input_type dataset_name (IntArg s) length
  = Raise (GenAIPerfExceptionOf (GenAIPerfException (JStr
      ("starting_index: " +:+ pretty s +:+ " must be larger than 0.")))).
Proof.
  intros Hname Hs. unfold _check_for_valid_args. rewrite Hname. cbn [bind].
  unfold _check_for_valid_starting_index, MINIMUM_STARTING_INDEX.
  apply Z.ltb_lt in Hs. by rewrite Hs.
Qed.

Lemma short_length_error (input_type : InputType)
  (dataset_name : string) (s l : Z) :
  _check_for_dataset_name_if_input_type_is_url input_type dataset_name = Ok tt ->
  (0 <= s)%Z -> (l < 1)%Z ->
  _check_for_valid_args input_type dataset_name (IntArg s) (IntArg l)
  = Raise (GenAIPerfExceptionOf (GenAIPerfException (JStr
      ("starting_index: " +:+ pretty l +:+ " must be larger than 1.")))).
Proof.
  intros Hname Hs Hl. unfold _check_for_valid_args. rewrite Hname. cbn [bind].
  unfold _check_for_valid_starting_index, _check_for_valid_length,
    MINIMUM_STARTING_INDEX, MINIMUM_LENGTH.
  apply Z.ltb_lt in Hl. apply Z.ltb_ge in Hs. by rewrite Hs, Hl.
Qed.

Lemma check_for_valid_args_spec (input_type : InputType) (dataset_name : string)
  (starting_index length : pyarg) :
  if valid_args input_type dataset_name starting_index length
  then _check_for_valid_args input_type dataset_name starting_index length = Ok tt
  else exists msg : string,
      _check_for_valid_args input_type dataset_name starting_index length
      = Raise (GenAIPerfExceptionOf (GenAIPerfException (JStr msg))).
Proof.
  unfold _check_for_valid_args, _check_for_dataset_name_if_input_type_is_url,
    _check_for_valid_starting_index, _check_for_valid_length, valid_args,
    MINIMUM_STARTING_INDEX, MINIMUM_LENGTH.
  cbn [truthy]. rewrite negb_involutive.
  destruct starting_index as [s|ss], length as [l|ls].
  - rewrite (Z.leb_antisym s 0), (Z.leb_antisym l 1).
    destruct input_type, (String.eqb dataset_name ""), (s <? 0)%Z, (l <? 1)%Z;
      cbn; eauto.
  - destruct input_type, (String.eqb dataset_name ""), (s <? 0)%Z; cbn; eauto.
  - destruct input_type, (String.eqb dataset_name ""); cbn; eauto.
  - destruct input_type, (String.eqb dataset_name ""); cbn; eauto.
Qed.

Lemma valid_args_iff (input_type : InputType) (dataset_name : string)
  (starting_index length : pyarg) :
  valid_args input_type dataset_name starting_index length = true
  <-> exists s l : Z,
        starting_index = IntArg s /\ length = IntArg l
        /\ (0 <= s)%Z /\ (1 <= l)%Z
        /\ (input_type = URL -> dataset_name <> "").
Proof.
  unfold valid_args. split.
  - destruct starting_index as [s|], length as [l|]; try discriminate.
    rewrite !andb_true_iff, !Z.leb_le. intros [[Hs Hl] Hname].
    exists s, l. repeat split; try done.
    intros -> ->. discriminate Hname.
  - intros (s & l & -> & -> & Hs & Hl & Hname).
    rewrite !andb_true_iff, !Z.leb_le. repeat split; try done.
    destruct input_type; try done.
    apply negb_true_iff, String.eqb_neq. by apply Hname.
Qed.

(** X16. Validation returns normally exactly for an integer
    [starting_index >= 0], an integer [length >= 1] and, under a URL input
    source, a non-empty dataset name.  On any other arguments it raises a
    [GenAIPerfException] carrying a message, and [create_llm_inputs] raises
    that same exception at once: the world it leaves is the world it found,
    so nothing was fetched, generated or written. *)
Theorem validation_gate (input_type : InputType) (dataset_name : string)
  (starting_index length : pyarg) :
  (_check_for_valid_args input_type dataset_name starting_index length = Ok tt
   <-> exists s l : Z,
         starting_index = IntArg s /\ length = IntArg l
         /\ (0 <= s)%Z /\ (1 <= l)%Z
         /\ (input_type = URL -> dataset_name <> ""))
  /\ (_check_for_valid_args input_type dataset_name starting_index length <> Ok tt
      -> exists msg : string,
           _check_for_valid_args input_type dataset_name starting_index length
           = Raise (GenAIPerfExceptionOf (GenAIPerfException (JStr msg)))
           /\ forall (output_format : OutputFormat)
                     (model_name input_filename : string)
                     (prompt_tokens_mean prompt_tokens_stddev
                        expected_output_tokens random_seed num_of_output_prompts : Z)
                     (add_model_name add_stream : bool) (w : world rng),
                create_llm_inputs input_type output_format dataset_name
                  model_name input_filename starting_index length
                  prompt_tokens_mean prompt_tokens_stddev expected_output_tokens
                  random_seed num_of_output_prompts add_model_name add_stream w
                = (Raise (GenAIPerfExceptionOf (GenAIPerfException (JStr msg))),
                   w)).
Proof.
  pose proof (check_for_valid_args_spec
                input_type dataset_name starting_index length) as Hspec.
  rewrite <- valid_args_iff.
  destruct (valid_args input_type dataset_name starting_index length).
  - split; [by split|]. intros Hne. by destruct Hne.
  - destruct Hspec as [msg Hmsg]. split.
    + rewrite Hmsg. by split.
    + intros _. exists msg. split; [done|]. intros.
      unfold create_llm_inputs, bindM, lift. by rewrite Hmsg.
Qed.

Lemma synthetic_loop
  (prompt_tokens_mean prompt_tokens_stddev expected_output_tokens random_seed : Z)
  (feats : json) (indices : list Z) :
  forall (acc : list json) (w : world rng), exists g : rng,
    for_eachM indices (JObj [("features", feats); ("rows", JList acc)])
      (fun dataset_json index =>
         result <~ _create_synthetic_prompt
           prompt_tokens_mean prompt_tokens_stddev expected_output_tokens
           (random_seed + index) ;;
         let '(synthetic_prompt, _) := result in
         lift (at_key "rows"
                 (append (JObj [("row",
                                 JObj [("text_input", JStr synthetic_prompt)])]))
                 dataset_json)) w
    = (Ok (JObj [("features", feats);
                 ("rows", JList (acc ++ map (fun index =>
                    synthetic_row (prompt_under
                      prompt_tokens_mean prompt_tokens_stddev
                      expected_output_tokens (random_seed + index)%Z)) indices))]),
       {| generator := g; log := log w |}).
Proof.
  induction indices as [|index indices IH]; intros acc w.
  - exists (generator w). cbn. rewrite app_nil_r. by destruct w.
  - cbn [for_eachM]. unfold bindM at 1. cbv beta.
    unfold bindM at 1. unfold _create_synthetic_prompt at 1. unfold prompt_under.
    destruct (create_synthetic_prompt prompt_tokens_mean prompt_tokens_stddev
                expected_output_tokens (seed_state (random_seed + index)))
      as [[prompt tokens] g1] eqn:Hgen.
    unfold lift at 1.
    change (at_key "rows"
              (append (JObj [("row", JObj [("text_input", JStr prompt)])]))
              (JObj [("features", feats); ("rows", JList acc)]))
      with (Ok (JObj [("features", feats);
                      ("rows", JList (acc ++ [synthetic_row prompt]))])).
    destruct (IH (acc ++ [synthetic_row prompt])
                 {| generator := g1; log := log w |}) as [g Hg].
    exists g. rewrite Hg. cbn [log map]. rewrite Hgen. cbn [fst].
    by rewrite <- app_assoc.
Qed.

Lemma range_length (n : Z) : length (range n) = Z.to_nat n.
Proof. unfold range. by rewrite length_map, length_seq. Qed.

Lemma range_lookup (n : Z) (i : nat) :
  i < Z.to_nat n -> range n !! i = Some (Z.of_nat i).
Proof.
  intros Hi. unfold range. rewrite lookup_map.
  by rewrite lookup_seq_lt.
Qed.

(** C8. The synthetic dataset does not depend on the state the random
    generator was in before the call: its rows are, for each index [i] of
    [0 .. num_of_output_prompts - 1] in order, the prompt that the generator
    produces right after [random.seed(random_seed + i)].  Two calls with the
    same five arguments therefore return the same prompts, and the call
    fetches and writes nothing. *)
Theorem synthetic_prompts_deterministic
  (prompt_tokens_mean prompt_tokens_stddev expected_output_tokens
     num_of_output_prompts random_seed : Z) (w : world rng) :
  exists prompts : list json,
    (_get_input_dataset_from_synthetic
       prompt_tokens_mean prompt_tokens_stddev expected_output_tokens
       num_of_output_prompts random_seed w).1
    = Ok (JObj [("features", JList [JObj [("name", JStr "text_input")]]);
                ("rows", JList prompts)])
    /\ length prompts = Z.to_nat num_of_output_prompts
    /\ (forall i : nat,
          i < Z.to_nat num_of_output_prompts ->
          prompts !! i
          = Some (JObj [("row", JObj [("text_input", JStr
              (create_synthetic_prompt
                 prompt_tokens_mean prompt_tokens_stddev expected_output_tokens
                 (seed_state (random_seed + Z.of_nat i))).1.1)])]))
    /\ (forall w' : world rng,
          (_get_input_dataset_from_synthetic
             prompt_tokens_mean prompt_tokens_stddev expected_output_tokens
             num_of_output_prompts random_seed w').1
          = (_get_input_dataset_from_synthetic
               prompt_tokens_mean prompt_tokens_stddev expected_output_tokens
               num_of_output_prompts random_seed w).1)
    /\ log (_get_input_dataset_from_synthetic
              prompt_tokens_mean prompt_tokens_stddev expected_output_tokens
              num_of_output_prompts random_seed w).2
       = log w.
Proof.
  unfold _get_input_dataset_from_synthetic.
  eexists. 
  destruct (synthetic_loop prompt_tokens_mean prompt_tokens_stddev
              expected_output_tokens random_seed
              (JList [JObj [("name", JStr "text_input")]])
              (range num_of_output_prompts) [] w) as [g Hg].
  rewrite Hg. cbn [fst snd app log].
  split; [reflexivity|].
  split; [by rewrite length_map, range_length|].
  split; [|split; [|done]].
  - intros i Hi. rewrite lookup_map, range_lookup by done. done.
  - intros w'.
    destruct (synthetic_loop prompt_tokens_mean prompt_tokens_stddev
                expected_output_tokens random_seed
                (JList [JObj [("name", JStr "text_input")]])
                (range num_of_output_prompts) [] w') as [g' Hg'].
    by rewrite Hg'.
Qed.

Lemma resolve_unknown (dataset_name : string) :
  dataset_name <> OPEN_ORCA -> dataset_name <> CNN_DAILY_MAIL ->
  _resolve_url dataset_name
  = Raise (GenAIPerfException (JStr
      (dataset_name
       +:+ " does not have a corresponding URL in the dataset_url_map."))).
Proof.
  intros H1 H2. unfold _resolve_url, dataset_url_map. cbn [url_map_get].
  apply String.eqb_neq in H1, H2. by rewrite H1, H2.
Qed.

(** C9, as the code has it.  Under a URL input source with a dataset name
    that is neither [openorca] nor [cnn_dailymail], [create_llm_inputs]
    always raises and leaves the world as it found it: no request is sent
    and no file is written.  When the arguments pass validation, what it
    raises is the unknown-dataset error of [_resolve_url]; otherwise it is the
    error of the validation, which runs first. *)
Theorem unknown_dataset_before_fetch (dataset_name : string)
  (output_format : OutputFormat) (model_name input_filename : string)
  (starting_index length : pyarg)
  (prompt_tokens_mean prompt_tokens_stddev expected_output_tokens random_seed
     num_of_output_prompts : Z)
  (add_model_name add_stream : bool) (w : world rng) :
  dataset_name <> OPEN_ORCA -> dataset_name <> CNN_DAILY_MAIL ->
  (exists e : exn,
     create_llm_inputs URL output_format dataset_name
       model_name input_filename starting_index length
       prompt_tokens_mean prompt_tokens_stddev expected_output_tokens
       random_seed num_of_output_prompts add_model_name add_stream w
     = (Raise e, w))
  /\ (_check_for_valid_args URL dataset_name starting_index length = Ok tt ->
      create_llm_inputs URL output_format dataset_name
        model_name input_filename starting_index length
        prompt_tokens_mean prompt_tokens_stddev expected_output_tokens
        random_seed num_of_output_prompts add_model_name add_stream w
      = (Raise (GenAIPerfException (JStr
           (dataset_name
            +:+ " does not have a corresponding URL in the dataset_url_map."))),
         w))
  /\ (forall e : exn,
        _check_for_valid_args URL dataset_name starting_index length = Raise e ->
        create_llm_inputs URL output_format dataset_name
          model_name input_filename starting_index length
          prompt_tokens_mean prompt_tokens_stddev expected_output_tokens
          random_seed num_of_output_prompts add_model_name add_stream w
        = (Raise e, w)).
Proof.
  intros H1 H2.
  assert (Hvalid :
    _check_for_valid_args URL dataset_name starting_index length = Ok tt ->
    create_llm_inputs URL output_format dataset_name
      model_name input_filename starting_index length
      prompt_tokens_mean prompt_tokens_stddev expected_output_tokens
      random_seed num_of_output_prompts add_model_name add_stream w
    = (Raise (GenAIPerfException (JStr
         (dataset_name
          +:+ " does not have a corresponding URL in the dataset_url_map."))),
       w)).
  { intros Hok. unfold create_llm_inputs, bindM, lift at 1. rewrite Hok.
    unfold _get_input_dataset_from_url, bindM, lift at 1.
    by rewrite resolve_unknown. }
  assert (Hinvalid : forall e : exn,
    _check_for_valid_args URL dataset_name starting_index length = Raise e ->
    create_llm_inputs URL output_format dataset_name
      model_name input_filename starting_index length
      prompt_tokens_mean prompt_tokens_stddev expected_output_tokens
      random_seed num_of_output_prompts add_model_name add_stream w
    = (Raise e, w)).
  { intros e He. unfold create_llm_inputs, bindM, lift at 1. by rewrite He. }
  split; [|by split].
  destruct (_check_for_valid_args URL dataset_name starting_index length)
    as [[]|e] eqn:Hcheck.
  - eexists. by apply Hvalid.
  - exists e. by apply Hinvalid.
Qed.

(** * Further properties of the formatters *)

Lemma payload_fields_row_payload (output_format : OutputFormat)
  (sys usr txt : list string) (add_model_name add_stream : bool)
  (model_name : string) (entry : Row) :
  exists (k : string) (v : json),
    String.eqb "model" k = false /\ String.eqb "stream" k = false
    /\ String.eqb "max_tokens" k = false
    /\ payload_fields output_format
         (row_payload output_format sys usr txt
            add_model_name add_stream model_name entry)
       = Ok (JObj ((k, v)
                   :: match output_format with
                      | TRTLLM => [("max_tokens", JList [JInt 256])]
                      | _ => []
                      end
                   ++ (if add_model_name then [("model", JStr model_name)] else [])
                   ++ (if add_stream
                       then [("stream", stream_value output_format)] else []))).
Proof.
  destruct output_format; eexists _, _; (split; [|split; [|split]]).
  all: revgoals.
  all: reflexivity.
Qed.

(** X1. Whatever the format, the dataset and the role sets, a payload has a
    [model] key exactly when [add_model_name] is set, holding the model name,
    and a [stream] key exactly when [add_stream] is set, holding [True] in the
    two OpenAI schemas and [[True]] in the vllm and trtllm ones; with a flag
    off the key is missing, not null. *)
Theorem optional_fields_follow_flags (output_format : OutputFormat)
  (ds : GenericDataset) (sys usr txt : list string)
  (add_model_name add_stream : bool) (model_name : string) :
  exists payloads : list json,
    populate output_format ds sys usr txt add_model_name add_stream model_name
    = Ok (JObj [("data", JList payloads)])
    /\ Forall (fun p =>
         (fields <- payload_fields output_format p ;; getitem "model" fields)
         = (if add_model_name then Ok (JStr model_name)
            else Raise (KeyError "model"))
         /\ (fields <- payload_fields output_format p ;; getitem "stream" fields)
            = (if add_stream then Ok (stream_value output_format)
               else Raise (KeyError "stream")))
         payloads.
Proof.
  eexists. split; [apply populate_map|].
  apply List.Forall_forall. intros p Hin.
  apply in_map_iff in Hin as (entry & <- & _).
  destruct (payload_fields_row_payload output_format sys usr txt
              add_model_name add_stream model_name entry)
    as (k & v & Hm & Hs & Ht & ->).
  cbn [bind getitem dict_get]. rewrite Hm, Hs.
  destruct output_format, add_model_name, add_stream; split; reflexivity.
Qed.

Lemma contribution_unclassified (sys usr txt : list string) (hc : string * string) :
  in_roles hc.1 sys usr txt = false -> contribution sys usr txt hc = "".
Proof. unfold contribution. by intros ->. Qed.

Lemma emits_unclassified (sys usr txt : list string) (hc : string * string) :
  in_roles hc.1 sys usr txt = false -> emits_message sys usr hc = false.
Proof.
  unfold in_roles, emits_message. intros H.
  apply orb_false_iff in H as [H _]. rewrite H. apply andb_false_r.
Qed.

Lemma row_text_classified_only (sys usr txt : list string) (entry : Row) :
  row_text sys usr txt (classified_only sys usr txt entry)
  = row_text sys usr txt entry.
Proof.
  unfold row_text.
  enough (H : forall acc : string,
    fold_left join_text
      (map (contribution sys usr txt) (classified_only sys usr txt entry)) acc
    = fold_left join_text (map (contribution sys usr txt) entry) acc) by apply H.
  induction entry as [|hc entry IH]; intros acc; [done|].
  cbn [classified_only List.filter map fold_left].
  destruct (in_roles hc.1 sys usr txt) eqn:Hin; cbn [map fold_left].
  - apply IH.
  - rewrite contribution_unclassified by done.
    change (join_text acc "") with acc. apply IH.
Qed.

Lemma row_messages_classified_only (sys usr txt : list string) (entry : Row) :
  row_messages sys usr (classified_only sys usr txt entry)
  = row_messages sys usr entry.
Proof.
  induction entry as [|hc entry IH]; [done|].
  cbn [classified_only List.filter].
  destruct (in_roles hc.1 sys usr txt) eqn:Hin.
  - rewrite !row_messages_cons. f_equal. apply IH.
  - rewrite row_messages_cons, (emits_unclassified sys usr txt) by done.
    apply IH.
Qed.

(** X2. A header outside the role lists is ignored, content and all: every
    formatter returns the same collection for a dataset and for the dataset
    whose rows keep only the headers found in the system, user or text-input
    role list. *)
Theorem unclassified_headers_ignored (output_format : OutputFormat)
  (ds : GenericDataset) (sys usr txt : list string)
  (add_model_name add_stream : bool) (model_name : string) :
  populate output_format
    {| features := features ds;
       rows := map (List.filter
                      (fun hc : string * string =>
                         in_list hc.1 sys || in_list hc.1 usr || in_list hc.1 txt))
                   (rows ds) |}
    sys usr txt add_model_name add_stream model_name
  = populate output_format ds sys usr txt add_model_name add_stream model_name.
Proof.
  rewrite !populate_map. cbn [rows]. rewrite map_map. do 2 f_equal.
  apply map_ext. intros entry.
  change (List.filter _ entry) with (classified_only sys usr txt entry).
  destruct output_format; cbn [row_payload];
    unfold chat_payload, completions_payload, vllm_payload, trtllm_payload;
    by rewrite ?row_text_classified_only, ?row_messages_classified_only.
Qed.

Lemma append_assoc (a b c : string) : (a +:+ b) +:+ c = a +:+ (b +:+ c).
Proof.
  induction a as [|x a IH]; [done|].
  change (String x ((a +:+ b) +:+ c) = String x (a +:+ (b +:+ c))).
  by rewrite IH.
Qed.

Lemma append_empty (a b : string) : a +:+ b = "" -> a = "" /\ b = "".
Proof.
  destruct a as [|x a]; [done|].
  change (String x (a +:+ b) = "" -> String x a = "" /\ b = ""). discriminate.
Qed.

Lemma concat_spoken_empty (l : list string) :
  Forall (fun c => c <> "") l -> String.concat " " l = "" -> l = [].
Proof.
  intros Hl Hc. destruct Hl as [|c l Hc0 Hl]; [done|].
  destruct l as [|c' l]; cbn in Hc; [done|].
  by apply append_empty in Hc as [-> _].
Qed.

Lemma join_text_empty (acc : string) : join_text acc "" = acc.
Proof. reflexivity. Qed.

Lemma join_text_first (c : string) : c <> "" -> join_text "" c = c.
Proof. intros Hc. unfold join_text. apply String.eqb_neq in Hc. by rewrite Hc. Qed.

Lemma join_text_next (acc c : string) :
  acc <> "" -> c <> "" -> join_text acc c = acc +:+ " " +:+ c.
Proof.
  intros Hacc Hc. unfold join_text.
  apply String.eqb_neq in Hacc, Hc. by rewrite Hacc, Hc.
Qed.

Lemma append_nonempty_l (a b : string) : a <> "" -> a +:+ b <> "".
Proof. intros Ha H. by apply append_empty in H as [-> _]. Qed.

Lemma join_text_nonempty (acc c : string) : c <> "" -> join_text acc c <> "".
Proof.
  intros Hc. destruct (String.eqb_spec acc "") as [->|Hacc].
  - by rewrite join_text_first.
  - rewrite join_text_next by done. by apply append_nonempty_l.
Qed.

Lemma concat_spoken_nonempty (x : string) (l : list string) :
  x <> "" -> String.concat " " (x :: l) <> "".
Proof.
  intros Hx. destruct l as [|y l]; [done|].
  change (x +:+ " " +:+ String.concat " " (y :: l) <> "").
  by apply append_nonempty_l.
Qed.

Lemma join_text_concat_cons (acc x : string) (l : list string) :
  x <> "" -> Forall (fun c => c <> "") l ->
  join_text (join_text acc x) (String.concat " " l)
  = join_text acc (String.concat " " (x :: l)).
Proof.
  intros Hx Hl. destruct Hl as [|y l Hy Hl]; [done|].
  pose proof (concat_spoken_nonempty y l Hy) as Htail.
  pose proof (concat_spoken_nonempty x (y :: l) Hx) as Hall.
  rewrite (join_text_next (join_text acc x)) by (done || by apply join_text_nonempty).
  change (String.concat " " (x :: y :: l))
    with (x +:+ " " +:+ String.concat " " (y :: l)) in *.
  destruct (String.eqb_spec acc "") as [->|Hacc].
  - by rewrite !join_text_first.
  - rewrite !join_text_next by done. by rewrite !append_assoc.
Qed.

Lemma filter_spoken (l : list string) :
  Forall (fun c => c <> "") (List.filter (fun c => negb (String.eqb c "")) l).
Proof.
  apply List.Forall_forall. intros c Hc.
  apply filter_In in Hc as [_ Hc].
  by apply negb_true_iff, String.eqb_neq in Hc.
Qed.

Lemma join_text_fold (l : list string) :
  forall acc : string,
    fold_left join_text l acc
    = join_text acc
        (String.concat " " (List.filter (fun c => negb (String.eqb c "")) l)).
Proof.
  induction l as [|x l IH]; intros acc; cbn [fold_left List.filter]; [done|].
  rewrite IH.
  destruct (String.eqb_spec x "") as [->|Hx]; cbn [negb]; [done|].
  apply join_text_concat_cons; [done|apply filter_spoken].
Qed.

(** X3. In the completions, vllm and trtllm formats the text field of a row
    is its non-empty contributions, in stored order, joined by single spaces:
    no leading, trailing or doubled separator comes from the joining, and the
    field is empty exactly when the row has no non-empty contribution. *)
Theorem text_field_is_joined :
  Forall (fun output_format =>
    forall (ds : GenericDataset) (sys usr txt : list string)
           (add_model_name add_stream : bool) (model_name : string),
    exists payloads : list json,
      populate output_format ds sys usr txt add_model_name add_stream model_name
      = Ok (JObj [("data", JList payloads)])
      /\ Forall2 (fun entry p =>
           text_field output_format p
           = Ok (JStr (String.concat " " (spoken sys usr txt entry)))
           /\ (text_field output_format p = Ok (JStr "")
               <-> spoken sys usr txt entry = []))
           (rows ds) payloads)
    TEXT_FORMATS.
Proof.
  apply List.Forall_forall. intros output_format Hin.
  apply list_elem_of_In in Hin.
  intros ds sys usr txt add_model_name add_stream model_name.
  eexists. split; [apply populate_map|].
  apply Forall2_map_self. intros entry.
  rewrite text_field_row_payload by done.
  unfold row_text. rewrite join_text_fold. unfold join_text.
  pose proof (filter_spoken (map (contribution sys usr txt) entry)) as Hl.
  fold (spoken sys usr txt entry) in Hl |- *.
  assert (Heq : (if String.eqb (String.concat " " (spoken sys usr txt entry)) ""
                 then ""
                 else if String.eqb "" ""
                      then String.concat " " (spoken sys usr txt entry)
                      else "" +:+ " " +:+ String.concat " " (spoken sys usr txt entry))
                = String.concat " " (spoken sys usr txt entry)).
  { by destruct (String.eqb_spec
                   (String.concat " " (spoken sys usr txt entry)) "") as [->|_]. }
  rewrite Heq. split; [done|]. split.
  - intros [= H]. by apply concat_spoken_empty.
  - by intros ->.
Qed.

(** X4. The three text formats agree on the text of every row, and a trtllm
    payload is the vllm payload of the same row with [max_tokens] inserted
    right after [text_input]. *)
Theorem text_formats_agree (ds : GenericDataset) (sys usr txt : list string)
  (add_model_name add_stream : bool) (model_name : string) :
  exists completions vllm trtllm : list json,
    _populate_openai_completions_output_json
      ds sys usr txt add_model_name add_stream model_name
    = Ok (JObj [("data", JList completions)])
    /\ _populate_vllm_output_json
         ds sys usr txt add_model_name add_stream model_name
       = Ok (JObj [("data", JList vllm)])
    /\ _populate_trtllm_output_json
         ds sys usr txt add_model_name add_stream model_name
       = Ok (JObj [("data", JList trtllm)])
    /\ Forall2 (fun c v =>
         exists text : json,
           text_field OPENAI_COMPLETIONS c = Ok text
           /\ text_field VLLM v = Ok text) completions vllm
    /\ Forall2 (fun v t =>
         exists (text : json) (rest : list (string * json)),
           v = JObj (("text_input", text) :: rest)
           /\ t = JObj (("text_input", text)
                        :: ("max_tokens", JList [JInt 256]) :: rest)) vllm trtllm.
Proof.
  eexists _, _, _.
  split; [apply populate_openai_completions_map|].
  split; [apply populate_vllm_map|].
  split; [apply populate_trtllm_map|].
  split.
  - apply Forall2_fmap, Forall_Forall2_diag, List.Forall_forall.
    intros entry _. by eexists.
  - apply Forall2_fmap, Forall_Forall2_diag, List.Forall_forall.
    intros entry _. by eexists _, _.
Qed.

(** * The formatters on arbitrary cells agree with the typed ones *)

Lemma for_each_ext {S A} (body1 body2 : S -> A -> res S) (xs : list A) :
  (forall s x, body1 s x = body2 s x) ->
  forall s, for_each xs s body1 = for_each xs s body2.
Proof.
  intros Hbody. induction xs as [|x xs IH]; intros s; cbn [for_each]; [done|].
  rewrite Hbody. destruct (body2 s x); cbn [bind]; [apply IH|done].
Qed.

Lemma for_each_map {S A B} (f : A -> B) (body : S -> B -> res S) (xs : list A) :
  forall s, for_each (map f xs) s body = for_each xs s (fun s x => body s (f x)).
Proof.
  induction xs as [|x xs IH]; intros s; cbn [for_each map]; [done|].
  destruct (body s (f x)); cbn [bind]; [apply IH|done].
Qed.

Lemma combine_map_r {A B C} (f : B -> C) (l : list A) (xs : list B) :
  combine l (map f xs) = map (fun ix : A * B => (ix.1, f ix.2)) (combine l xs).
Proof.
  revert l. induction xs as [|x xs IH]; intros [|i l]; cbn; try done.
  by rewrite IH.
Qed.

Lemma enumerate_map {A B} (f : A -> B) (xs : list A) :
  enumerate (map f xs) = map (fun ix : nat * A => (ix.1, f ix.2)) (enumerate xs).
Proof. unfold enumerate. rewrite length_map. apply combine_map_r. Qed.

Lemma as_text_cells_json (d : list (string * json)) (entry : Row) :
  as_text_cells d = Some entry ->
  d = map (fun hc : string * string => (hc.1, JStr hc.2)) entry.
Proof.
  revert entry. induction d as [|[k v] d IH]; intros entry; cbn [as_text_cells].
  - by intros [= <-].
  - destruct v; cbn [as_text]; try discriminate.
    destruct (as_text_cells d) as [cells|]; [|discriminate].
    intros [= <-]. cbn [map fst snd]. by rewrite (IH cells).
Qed.

Lemma as_text_rows_json (rs : list json) (entries : list Row) :
  as_text_rows rs = Some entries -> rs = map row_json entries.
Proof.
  revert entries. induction rs as [|r rs IH]; intros entries; cbn [as_text_rows].
  - by intros [= <-].
  - destruct (as_text_row r) as [entry|] eqn:Hr; [|discriminate].
    destruct (as_text_rows rs) as [rest|]; [|discriminate].
    intros [= <-]. cbn [map]. rewrite (IH rest) by done.
    destruct r; try discriminate. cbn [as_text_row] in Hr.
    unfold row_json. by rewrite <- (as_text_cells_json _ _ Hr).
Qed.

Lemma as_text_list_json (fs : list json) (names : list string) :
  as_text_list fs = Some names -> fs = map JStr names.
Proof.
  revert names. induction fs as [|f fs IH]; intros names; cbn [as_text_list].
  - by intros [= <-].
  - destruct f; cbn [as_text]; try discriminate.
    destruct (as_text_list fs) as [rest|]; [|discriminate].
    intros [= <-]. cbn [map]. by rewrite (IH rest).
Qed.

Lemma as_generic_dataset_shape (g : json) (ds : GenericDataset) :
  as_generic_dataset g = Some ds ->
  exists d : list (string * json),
    g = JObj d
    /\ dict_get "rows" d = Some (JList (map row_json (rows ds)))
    /\ dict_get "features" d
       = (fun names => JList (map JStr names)) <$> features ds.
Proof.
  unfold as_generic_dataset. destruct g as [| | | | |d]; try discriminate.
  destruct (dict_get "rows" d) as [[| | | |rs|]|] eqn:Hrows; try discriminate.
  destruct (as_text_rows rs) as [entries|] eqn:Hrs.
  2: { destruct (dict_get "features" d) as [[]|]; discriminate. }
  apply as_text_rows_json in Hrs as ->.
  destruct (dict_get "features" d) as [[| | | |fs|]|] eqn:Hfeat;
    try discriminate.
  - destruct (as_text_list fs) as [names|] eqn:Hfs; [|discriminate].
    apply as_text_list_json in Hfs as ->.
    intros [= <-]. by exists d.
  - intros [= <-]. by exists d.
Qed.

Lemma untyped_classify_fold (names : list string) :
  forall acc,
    fold_left Untyped.classify_feature (map JStr names) acc
    = fold_left classify_feature names acc.
Proof.
  induction names as [|n names IH]; intros acc; [done|].
  cbn [map fold_left Untyped.classify_feature]. apply IH.
Qed.

Lemma untyped_roles_agree (g : json) (ds : GenericDataset) :
  as_generic_dataset g = Some ds ->
  Untyped._determine_json_feature_roles g = Ok (_determine_json_feature_roles ds).
Proof.
  intros Hview. apply as_generic_dataset_shape in Hview as (d & -> & _ & Hfs).
  unfold Untyped._determine_json_feature_roles, _determine_json_feature_roles.
  cbn [has_key bind getitem]. rewrite Hfs.
  destruct (features ds) as [names|]; cbn [fmap option_fmap option_map bind iterate];
    [|done].
  by rewrite untyped_classify_fold.
Qed.

(** Enter both loops over the rows, the one on the document and the typed
    one, down to the row at hand. *)
Ltac enter_both_loops Hview :=
  let d := fresh "d" in
  let Hrows := fresh "Hrows" in
  apply as_generic_dataset_shape in Hview as (d & -> & Hrows & _);
  cbn [getitem bind]; rewrite Hrows; cbn [bind iterate];
  rewrite enumerate_map, for_each_map;
  apply for_each_ext; intros ? [? ?]; cbn [fst snd].

Lemma untyped_chat_agrees (g : json) (ds : GenericDataset)
  (sys usr : list string) (add_model_name add_stream : bool)
  (model_name : string) :
  as_generic_dataset g = Some ds ->
  Untyped._populate_openai_chat_completions_output_json
    g sys usr add_model_name add_stream model_name
  = _populate_openai_chat_completions_output_json
      ds sys usr add_model_name add_stream model_name.
Proof.
  intros Hview.
  unfold Untyped._populate_openai_chat_completions_output_json,
    _populate_openai_chat_completions_output_json.
  enter_both_loops Hview.
  destruct (at_key "data" (append _) _); cbn [bind]; [|done].
  destruct (at_key "data" (at_idx _ _) _); cbn [bind]; [|done].
  unfold row_json. cbn [Untyped.items bind]. rewrite for_each_map.
  f_equal. apply for_each_ext. by intros pa [h c].
Qed.

Lemma untyped_text_cell_agrees (pa_json : json)
  (index : nat) (h c : string) (sys usr txt : list string) :
  Untyped._add_new_text_input_to_json repr_of pa_json index
    (Untyped._create_new_text_input h sys usr txt (JStr c))
  = _add_new_text_input_to_json pa_json index
      (_create_new_text_input h sys usr txt c).
Proof.
  unfold Untyped._create_new_text_input, _create_new_text_input.
  by destruct (in_list h sys || in_list h usr || in_list h txt).
Qed.

Lemma untyped_prompt_cell_agrees (pa_json : json)
  (index : nat) (h c : string) (sys usr txt : list string) :
  Untyped._add_new_prompt_to_json repr_of pa_json index
    (Untyped._create_new_prompt h sys usr txt (JStr c))
  = _add_new_prompt_to_json pa_json index (_create_new_prompt h sys usr txt c).
Proof.
  unfold Untyped._create_new_prompt, _create_new_prompt.
  by destruct (in_list h sys || in_list h usr || in_list h txt).
Qed.

Lemma untyped_completions_agrees (g : json) (ds : GenericDataset)
  (sys usr txt : list string) (add_model_name add_stream : bool)
  (model_name : string) :
  as_generic_dataset g = Some ds ->
  Untyped._populate_openai_completions_output_json repr_of
    g sys usr txt add_model_name add_stream model_name
  = _populate_openai_completions_output_json
      ds sys usr txt add_model_name add_stream model_name.
Proof.
  intros Hview.
  unfold Untyped._populate_openai_completions_output_json,
    _populate_openai_completions_output_json.
  enter_both_loops Hview.
  destruct (at_key "data" (append _) _); cbn [bind]; [|done].
  destruct (at_key "data" (at_idx _ _) _); cbn [bind]; [|done].
  unfold row_json. cbn [Untyped.items bind]. rewrite for_each_map.
  f_equal. apply for_each_ext. intros pa [h c].
  apply untyped_prompt_cell_agrees.
Qed.

Lemma untyped_vllm_agrees (g : json) (ds : GenericDataset)
  (sys usr txt : list string) (add_model_name add_stream : bool)
  (model_name : string) :
  as_generic_dataset g = Some ds ->
  Untyped._populate_vllm_output_json repr_of
    g sys usr txt add_model_name add_stream model_name
  = _populate_vllm_output_json ds sys usr txt add_model_name add_stream model_name.
Proof.
  intros Hview.
  unfold Untyped._populate_vllm_output_json, _populate_vllm_output_json.
  enter_both_loops Hview.
  destruct (at_key "data" (append _) _); cbn [bind]; [|done].
  unfold row_json. cbn [Untyped.items bind]. rewrite for_each_map.
  f_equal. apply for_each_ext. intros pa [h c].
  apply untyped_text_cell_agrees.
Qed.

Lemma untyped_trtllm_agrees (g : json) (ds : GenericDataset)
  (sys usr txt : list string) (add_model_name add_stream : bool)
  (model_name : string) :
  as_generic_dataset g = Some ds ->
  Untyped._populate_trtllm_output_json repr_of
    g sys usr txt add_model_name add_stream model_name
  = _populate_trtllm_output_json
      ds sys usr txt add_model_name add_stream model_name.
Proof.
  intros Hview.
  unfold Untyped._populate_trtllm_output_json, _populate_trtllm_output_json.
  enter_both_loops Hview.
  destruct (at_key "data" (append _) _); cbn [bind]; [|done].
  unfold row_json. cbn [Untyped.items bind]. rewrite for_each_map.
  f_equal. apply for_each_ext. intros pa [h c].
  apply untyped_text_cell_agrees.
Qed.

(** On a document that reads as a dataset of text cells, the formatter that
    [create_llm_inputs] runs returns what the typed formatter returns. *)
Lemma untyped_convert_agrees (output_format : OutputFormat) (g : json) (ds : GenericDataset)
  (add_model_name add_stream : bool) (model_name : string) :
  as_generic_dataset g = Some ds ->
  Untyped._convert_generic_json_to_output_format repr_of
    output_format g add_model_name add_stream model_name
  = _convert_generic_json_to_output_format
      output_format ds add_model_name add_stream model_name.
Proof.
  intros Hview.
  destruct output_format;
    cbn [Untyped._convert_generic_json_to_output_format
         _convert_generic_json_to_output_format];
    unfold Untyped._convert_generic_json_to_openai_chat_completions_format,
      Untyped._convert_generic_json_to_openai_completions_format,
      Untyped._convert_generic_json_to_vllm_format,
      Untyped._convert_generic_json_to_trtllm_format,
      _convert_generic_json_to_openai_chat_completions_format,
      _convert_generic_json_to_openai_completions_format,
      _convert_generic_json_to_vllm_format,
      _convert_generic_json_to_trtllm_format;
    rewrite (untyped_roles_agree g ds Hview); cbn [bind];
    destruct (_determine_json_feature_roles ds) as [[sys usr] txt].
  - by apply untyped_chat_agrees.
  - by apply untyped_completions_agrees.
  - by apply untyped_trtllm_agrees.
  - by apply untyped_vllm_agrees.
Qed.

(** * Further properties of the orchestrator *)

(** [create_llm_inputs] stage by stage. *)
Lemma create_llm_inputs_stages
  (input_type : InputType) (output_format : OutputFormat)
  (dataset_name model_name input_filename : string)
  (starting_index length : pyarg)
  (prompt_tokens_mean prompt_tokens_stddev expected_output_tokens random_seed
     num_of_output_prompts : Z)
  (add_model_name add_stream : bool) (w : world rng) :
  create_llm_inputs input_type output_format dataset_name
    model_name input_filename starting_index length
    prompt_tokens_mean prompt_tokens_stddev expected_output_tokens
    random_seed num_of_output_prompts add_model_name add_stream w
  = match _check_for_valid_args input_type dataset_name starting_index length with
    | Raise e => (Raise e, w)
    | Ok _ =>
        match acquire_generic_dataset input_type dataset_name
                starting_index length prompt_tokens_mean prompt_tokens_stddev
                expected_output_tokens random_seed num_of_output_prompts w with
        | (Raise e, w1) => (Raise e, w1)
        | (Ok generic_dataset_json, w1) =>
            match Untyped._convert_generic_json_to_output_format repr_of
                    output_format generic_dataset_json
                    add_model_name add_stream model_name with
            | Raise e => (Raise e, w1)
            | Ok out => (Ok out, written w1 out)
            end
        end
    end.
Proof.
  unfold create_llm_inputs. unfold bindM at 1. unfold lift at 1.
  destruct (_check_for_valid_args input_type dataset_name starting_index length)
    as [[]|e]; [|done].
  unfold bindM at 1.
  change (match input_type with
          | URL => _
          | FILE => _
          | SYNTHETIC => _
          end w)
    with (acquire_generic_dataset input_type dataset_name
            starting_index length prompt_tokens_mean prompt_tokens_stddev
            expected_output_tokens random_seed num_of_output_prompts w).
  destruct (acquire_generic_dataset _ _ _ _ _ _ _ _ _ w) as [[g|e] w1]; [|done].
  unfold bindM, lift, ret, _write_json_to_file, emit, written.
  by destruct (Untyped._convert_generic_json_to_output_format _ _ _ _ _ _).
Qed.

Lemma get_input_dataset_from_url_cases (dataset_name : string)
  (starting_index length : pyarg) (w : world rng) :
  match _resolve_url dataset_name with
  | Raise e =>
      _get_input_dataset_from_url dataset_name starting_index length w
      = (Raise e, w)
  | Ok url =>
      let configured_url := _create_configured_url url starting_index length in
      _get_input_dataset_from_url dataset_name starting_index length w
      = (match requests_get configured_url with
         | Response body => Ok body
         | RequestFailed e =>
             error_message <- _create_error_message e ;;
             Raise (GenAIPerfException (JStr error_message))
         end,
         {| generator := generator w; log := log w ++ [HttpGet configured_url] |})
  end.
Proof.
  unfold _get_input_dataset_from_url, _download_dataset, _query_server,
    bindM, lift, emit, ret.
  destruct (_resolve_url dataset_name) as [url|e]; [|done].
  cbv zeta. destruct (requests_get _) as [body|e]; [done|].
  by destruct (_create_error_message e).
Qed.



(** X6. A file input source is refused after validation and before anything
    else: with arguments that pass validation the run raises the
    not-supported error and leaves the world untouched. *)
Theorem file_input_not_supported (output_format : OutputFormat)
  (dataset_name model_name input_filename : string)
  (starting_index length : pyarg)
  (prompt_tokens_mean prompt_tokens_stddev expected_output_tokens random_seed
     num_of_output_prompts : Z)
  (add_model_name add_stream : bool) (w : world rng) :
  _check_for_valid_args FILE dataset_name starting_index length = Ok tt ->
  create_llm_inputs FILE output_format dataset_name
    model_name input_filename starting_index length
    prompt_tokens_mean prompt_tokens_stddev expected_output_tokens
    random_seed num_of_output_prompts add_model_name add_stream w
  = (Raise (GenAIPerfException (JStr
       "Using a file to supply LLM Input is not supported at this time")),
     w).
Proof. intros Hok. rewrite create_llm_inputs_stages. by rewrite Hok. Qed.

Lemma synthetic_dataset
  (prompt_tokens_mean prompt_tokens_stddev expected_output_tokens
     num_of_output_prompts random_seed : Z) (w : world rng) :
  exists g : rng,
    _get_input_dataset_from_synthetic
      prompt_tokens_mean prompt_tokens_stddev expected_output_tokens
      num_of_output_prompts random_seed w
    = (Ok (JObj [("features", JList [JObj [("name", JStr "text_input")]]);
                 ("rows", JList (map synthetic_row
                    (map (fun index => prompt_under
                            prompt_tokens_mean prompt_tokens_stddev
                            expected_output_tokens (random_seed + index)%Z)
                         (range num_of_output_prompts))))]),
       {| generator := g; log := log w |}).
Proof.
  unfold _get_input_dataset_from_synthetic.
  destruct (synthetic_loop prompt_tokens_mean prompt_tokens_stddev
              expected_output_tokens random_seed
              (JList [JObj [("name", JStr "text_input")]])
              (range num_of_output_prompts) [] w) as [g Hg].
  exists g. rewrite Hg. cbn [app]. by rewrite map_map.
Qed.

Lemma synthetic_rows_unwrap (prompts : list string) :
  Forall2 (fun r x => getitem "row" r = Ok x)
    (map synthetic_row prompts) (map prompt_row_json prompts).
Proof. induction prompts; cbn [map]; by constructor. Qed.

Lemma synthetic_dataset_normalised (prompts : list string) :
  _convert_input_synthetic_dataset_to_generic_json
    (JObj [("features", JList [JObj [("name", JStr "text_input")]]);
           ("rows", JList (map synthetic_row prompts))])
  = Ok (JObj [("features", JList [JStr "text_input"]);
              ("rows", JList (map prompt_row_json prompts))]).
Proof.
  unfold _convert_input_synthetic_dataset_to_generic_json,
    _convert_dataset_to_generic_input_json, _add_features_to_generic_json,
    _add_rows_to_generic_json.
  cbn [has_key bind getitem dict_get String.eqb Ascii.eqb Bool.eqb
       setitem dict_set iterate for_each].
  change (at_key "features" (append (JStr "text_input"))
            (JObj [("features", JList [])]))
    with (Ok (JObj [("features", JList [JStr "text_input"])])).
  cbn [bind].
  apply (rows_loop [("features", JList [JStr "text_input"])]
           (map synthetic_row prompts) (map prompt_row_json prompts)
           eq_refl (synthetic_rows_unwrap prompts) []).
Qed.

Lemma as_text_rows_prompts (prompts : list string) :
  as_text_rows (map prompt_row_json prompts) = Some (map prompt_row prompts).
Proof.
  induction prompts as [|p prompts IH]; [done|].
  cbn [map as_text_rows]. rewrite IH. reflexivity.
Qed.

Lemma untyped_convert_prompts (output_format : OutputFormat)
  (add_model_name add_stream : bool) (model_name : string)
  (prompts : list string) :
  Untyped._convert_generic_json_to_output_format repr_of output_format
    (JObj [("features", JList [JStr "text_input"]);
           ("rows", JList (map prompt_row_json prompts))])
    add_model_name add_stream model_name
  = Ok (pa (map (fun prompt =>
                   row_payload output_format [] ["text_input"] []
                     add_model_name add_stream model_name (prompt_row prompt))
                prompts)).
Proof.
  rewrite (untyped_convert_agrees output_format _
             {| features := Some ["text_input"];
                rows := map prompt_row prompts |}).
  - rewrite convert_output_format_map. cbn [rows features]. by rewrite map_map.
  - unfold as_generic_dataset.
    cbn [dict_get String.eqb Ascii.eqb Bool.eqb].
    by rewrite as_text_rows_prompts.
Qed.

Lemma prompt_payload_read (output_format : OutputFormat)
  (add_model_name add_stream : bool) (model_name prompt : string) :
  match output_format with
  | OPENAI_CHAT_COMPLETIONS =>
      messages_of (row_payload output_format [] ["text_input"] []
                     add_model_name add_stream model_name (prompt_row prompt))
      = Ok (JList (if String.eqb prompt "" then []
                   else [JObj [("role", JStr "user");
                               ("content", JStr prompt)]]))
  | _ =>
      text_field output_format
        (row_payload output_format [] ["text_input"] []
           add_model_name add_stream model_name (prompt_row prompt))
      = Ok (JStr prompt)
  end.
Proof.
  destruct output_format; cbn [row_payload].
  - rewrite messages_of_chat_payload.
    unfold row_messages, prompt_row, emits_message, message_of.
    cbn [List.filter fst snd in_list existsb].
    by destruct (String.eqb prompt "").
  - cbn. unfold join_text. by destruct (String.eqb_spec prompt "") as [->|_].
  - cbn. unfold join_text. by destruct (String.eqb_spec prompt "") as [->|_].
  - cbn. unfold join_text. by destruct (String.eqb_spec prompt "") as [->|_].
Qed.

(** X7. A synthetic run with arguments that pass validation never fails.
    It returns one payload per generated prompt (none when
    [num_of_output_prompts] is not positive), payload [i] being built from the
    prompt generated under [random_seed + i]: in the chat format its single
    message has role [user] (no message for an empty prompt), in the other
    formats the prompt is the text field.  The run sends no request and
    writes the returned document once. *)
Theorem synthetic_run
  (output_format : OutputFormat)
  (dataset_name model_name input_filename : string)
  (starting_index length : pyarg)
  (prompt_tokens_mean prompt_tokens_stddev expected_output_tokens random_seed
     num_of_output_prompts : Z)
  (add_model_name add_stream : bool) (w : world rng) :
  _check_for_valid_args SYNTHETIC dataset_name starting_index length = Ok tt ->
  exists (payloads : list json) (g : rng),
    create_llm_inputs SYNTHETIC output_format dataset_name
      model_name input_filename starting_index length
      prompt_tokens_mean prompt_tokens_stddev expected_output_tokens
      random_seed num_of_output_prompts add_model_name add_stream w
    = (Ok (JObj [("data", JList payloads)]),
       {| generator := g;
          log := log w ++ [FileWrite DEFAULT_INPUT_DATA_JSON
                             (JObj [("data", JList payloads)])] |})
    /\ List.length payloads = Z.to_nat num_of_output_prompts
    /\ forall i : nat,
         i < Z.to_nat num_of_output_prompts ->
         exists p : json,
           payloads !! i = Some p
           /\ match output_format with
              | OPENAI_CHAT_COMPLETIONS =>
                  messages_of p
                  = Ok (JList
                      (if String.eqb
                            (create_synthetic_prompt prompt_tokens_mean
                               prompt_tokens_stddev expected_output_tokens
                               (seed_state (random_seed + Z.of_nat i))).1.1 ""
                       then []
                       else [JObj [("role", JStr "user");
                                   ("content", JStr
                                      (create_synthetic_prompt prompt_tokens_mean
                                         prompt_tokens_stddev
                                         expected_output_tokens
                                         (seed_state (random_seed + Z.of_nat i))
                                      ).1.1)]]))
              | _ =>
                  text_field output_format p
                  = Ok (JStr
                      (create_synthetic_prompt prompt_tokens_mean
                         prompt_tokens_stddev expected_output_tokens
                         (seed_state (random_seed + Z.of_nat i))).1.1)
              end.
Proof.
  intros Hok. rewrite create_llm_inputs_stages, Hok.
  cbn [acquire_generic_dataset]. unfold bindM, lift.
  destruct (synthetic_dataset prompt_tokens_mean prompt_tokens_stddev
              expected_output_tokens num_of_output_prompts random_seed w)
    as [g Hg].
  rewrite Hg, synthetic_dataset_normalised, untyped_convert_prompts.
  eexists _, g. split; [reflexivity|].
  split; [by rewrite !length_map, range_length|].
  intros i Hi. eexists. split.
  - rewrite !lookup_map, range_lookup by done. reflexivity.
  - apply prompt_payload_read.
Qed.

Lemma acquire_from_url (dataset_name url : string)
  (starting_index length : pyarg)
  (prompt_tokens_mean prompt_tokens_stddev expected_output_tokens random_seed
     num_of_output_prompts : Z) (w : world rng) :
  _resolve_url dataset_name = Ok url ->
  acquire_generic_dataset URL dataset_name starting_index length
    prompt_tokens_mean prompt_tokens_stddev expected_output_tokens
    random_seed num_of_output_prompts w
  = (match requests_get (_create_configured_url url starting_index length) with
     | Response body => _convert_input_url_dataset_to_generic_json body
     | RequestFailed e =>
         error_message <- _create_error_message e ;;
         Raise (GenAIPerfException (JStr error_message))
     end,
     {| generator := generator w;
        log := log w
               ++ [HttpGet (_create_configured_url url starting_index length)] |}).
Proof.
  intros Hres. cbn [acquire_generic_dataset]. unfold bindM, lift.
  pose proof (get_input_dataset_from_url_cases
                dataset_name starting_index length w) as Hurl.
  rewrite Hres in Hurl. cbv zeta in Hurl. rewrite Hurl.
  destruct (requests_get _) as [body|e]; [done|].
  by destruct (_create_error_message e).
Qed.

(** X8. A URL run on a registered dataset whose response normalises to a
    dataset of text cells sends exactly one request, to the dataset's URL
    followed by [&offset=<starting_index>&length=<length>], returns the
    formatter's collection for the normalised rows, and then writes that
    collection to the output file. *)
Theorem url_run_success
  (output_format : OutputFormat)
  (dataset_name model_name input_filename url : string)
  (starting_index length : pyarg)
  (prompt_tokens_mean prompt_tokens_stddev expected_output_tokens random_seed
     num_of_output_prompts : Z)
  (add_model_name add_stream : bool) (w : world rng)
  (body : option json) (generic_dataset_json : json) (ds : GenericDataset) :
  _check_for_valid_args URL dataset_name starting_index length = Ok tt ->
  _resolve_url dataset_name = Ok url ->
  requests_get (url +:+ "&offset=" +:+ str_of starting_index
                    +:+ "&length=" +:+ str_of length) = Response body ->
  _convert_input_url_dataset_to_generic_json body = Ok generic_dataset_json ->
  as_generic_dataset generic_dataset_json = Some ds ->
  exists payloads : list json,
    _convert_generic_json_to_output_format
      output_format ds add_model_name add_stream model_name
    = Ok (JObj [("data", JList payloads)])
    /\ List.length payloads = List.length (rows ds)
    /\ create_llm_inputs URL output_format dataset_name
         model_name input_filename starting_index length
         prompt_tokens_mean prompt_tokens_stddev expected_output_tokens
         random_seed num_of_output_prompts add_model_name add_stream w
       = (Ok (JObj [("data", JList payloads)]),
          {| generator := generator w;
             log := log w
                    ++ [HttpGet (url +:+ "&offset=" +:+ str_of starting_index
                                     +:+ "&length=" +:+ str_of length);
                        FileWrite DEFAULT_INPUT_DATA_JSON
                          (JObj [("data", JList payloads)])] |}).
Proof.
  intros Hok Hres Hget Hnorm Hview.
  eexists. split; [apply convert_output_format_map|].
  split; [apply length_map|].
  rewrite create_llm_inputs_stages, Hok.
  rewrite (acquire_from_url dataset_name url) by done.
  unfold _create_configured_url. cbv zeta. rewrite Hget, Hnorm.
  rewrite (untyped_convert_agrees output_format _ ds) by done.
  rewrite convert_output_format_map.
  unfold written. cbn [generator log]. by rewrite <- app_assoc.
Qed.

(** X9. When the request of a URL run fails in transport, the request is
    the only thing the run did and no file is written.  What the run raises
    depends on the exception of [requests]: when its first argument is
    another exception whose first argument is a text, the run raises the
    invalid-URL error built from that text; when its first argument is itself
    a text, the unguarded read of [args[0].args] raises [AttributeError]
    instead; when it has no argument, [IndexError]. *)
Theorem url_run_transport_failure
  (output_format : OutputFormat)
  (dataset_name model_name input_filename url : string)
  (starting_index length : pyarg)
  (prompt_tokens_mean prompt_tokens_stddev expected_output_tokens random_seed
     num_of_output_prompts : Z)
  (add_model_name add_stream : bool) (w : world rng) (exception : pyobj) :
  _check_for_valid_args URL dataset_name starting_index length = Ok tt ->
  _resolve_url dataset_name = Ok url ->
  requests_get (url +:+ "&offset=" +:+ str_of starting_index
                    +:+ "&length=" +:+ str_of length)
  = RequestFailed exception ->
  (create_llm_inputs URL output_format dataset_name
     model_name input_filename starting_index length
     prompt_tokens_mean prompt_tokens_stddev expected_output_tokens
     random_seed num_of_output_prompts add_model_name add_stream w).2
  = {| generator := generator w;
       log := log w
              ++ [HttpGet (url +:+ "&offset=" +:+ str_of starting_index
                               +:+ "&length=" +:+ str_of length)] |}
  /\ (forall (url_str : string) (more more' : list pyobj),
        exception = PExc (PExc (PText url_str :: more) :: more') ->
        (create_llm_inputs URL output_format dataset_name
           model_name input_filename starting_index length
           prompt_tokens_mean prompt_tokens_stddev expected_output_tokens
           random_seed num_of_output_prompts add_model_name add_stream w).1
        = Raise (GenAIPerfException (JStr
            ("Invalid URL: "
             +:+ slice url_str (find_quote url_str 0)
                   (find_quote url_str
                      (Z.to_nat (find_quote url_str 0 + 1)) + 1)))))
  /\ (forall (text : string) (more : list pyobj),
        exception = PExc (PText text :: more) ->
        (create_llm_inputs URL output_format dataset_name
           model_name input_filename starting_index length
           prompt_tokens_mean prompt_tokens_stddev expected_output_tokens
           random_seed num_of_output_prompts add_model_name add_stream w).1
        = Raise AttributeError)
  /\ (exception = PExc [] ->
      (create_llm_inputs URL output_format dataset_name
         model_name input_filename starting_index length
         prompt_tokens_mean prompt_tokens_stddev expected_output_tokens
         random_seed num_of_output_prompts add_model_name add_stream w).1
      = Raise IndexError).
Proof.
  intros Hok Hres Hget.
  rewrite create_llm_inputs_stages, Hok.
  rewrite (acquire_from_url dataset_name url) by done.
  unfold _create_configured_url. cbv zeta. rewrite Hget.
  split; [|split; [|split]].
  - by destruct (_create_error_message exception).
  - by intros url_str more more' ->.
  - by intros text more ->.
  - by intros ->.
Qed.

(** X10. When the server answers a URL run with a document that has an
    [error] key, the run raises a [GenAIPerfException] wrapping the one that
    carries the server's error value, whatever else the document holds.  A
    JSON body that is not an object raises the wrapped [AttributeError] of
    [.keys()], and a body that is not JSON the decoding error.  In all three
    cases the request is the only thing the run did, and no file is
    written. *)
Theorem url_run_error_payload
  (output_format : OutputFormat)
  (dataset_name model_name input_filename url : string)
  (starting_index length : pyarg)
  (prompt_tokens_mean prompt_tokens_stddev expected_output_tokens random_seed
     num_of_output_prompts : Z)
  (add_model_name add_stream : bool) (w : world rng) (body : option json) :
  _check_for_valid_args URL dataset_name starting_index length = Ok tt ->
  _resolve_url dataset_name = Ok url ->
  requests_get (url +:+ "&offset=" +:+ str_of starting_index
                    +:+ "&length=" +:+ str_of length) = Response body ->
  match body with
  | Some (JObj d) =>
      forall e : json,
        dict_get "error" d = Some e ->
        create_llm_inputs URL output_format dataset_name
          model_name input_filename starting_index length
          prompt_tokens_mean prompt_tokens_stddev expected_output_tokens
          random_seed num_of_output_prompts add_model_name add_stream w
        = (Raise (GenAIPerfExceptionOf (GenAIPerfException e)),
           {| generator := generator w;
              log := log w
                     ++ [HttpGet (url +:+ "&offset=" +:+ str_of starting_index
                                      +:+ "&length=" +:+ str_of length)] |})
  | Some _ =>
      create_llm_inputs URL output_format dataset_name
        model_name input_filename starting_index length
        prompt_tokens_mean prompt_tokens_stddev expected_output_tokens
        random_seed num_of_output_prompts add_model_name add_stream w
      = (Raise (GenAIPerfExceptionOf AttributeError),
         {| generator := generator w;
            log := log w
                   ++ [HttpGet (url +:+ "&offset=" +:+ str_of starting_index
                                    +:+ "&length=" +:+ str_of length)] |})
  | None =>
      create_llm_inputs URL output_format dataset_name
        model_name input_filename starting_index length
        prompt_tokens_mean prompt_tokens_stddev expected_output_tokens
        random_seed num_of_output_prompts add_model_name add_stream w
      = (Raise JSONDecodeError,
         {| generator := generator w;
            log := log w
                   ++ [HttpGet (url +:+ "&offset=" +:+ str_of starting_index
                                    +:+ "&length=" +:+ str_of length)] |})
  end.
Proof.
  intros Hok Hres Hget.
  rewrite create_llm_inputs_stages, Hok.
  rewrite (acquire_from_url dataset_name url) by done.
  unfold _create_configured_url. cbv zeta. rewrite Hget.
  destruct body as [[| | | | |d]|]; try reflexivity.
  intros e He. unfold _convert_input_url_dataset_to_generic_json,
    _check_for_error_in_json_of_dataset.
  cbn [bind has_key getitem]. by rewrite He.
Qed.

(** * The invalid-URL message *)

Lemma prefix_quote (b : ascii) (s : string) :
  String.prefix "'" (String b s) = Ascii.eqb b "'".
Proof.
  change (String.prefix "'" (String b s))
    with (if ascii_dec "'" b then String.prefix "" s else false).
  destruct (ascii_dec "'" b) as [<-|Hne].
  - by destruct s.
  - symmetry. apply Ascii.eqb_neq. congruence.
Qed.

Lemma index_cons_0 (b : ascii) (s : string) :
  String.index 0 "'" (String b s)
  = if Ascii.eqb b "'" then Some 0
    else S <$> String.index 0 "'" s.
Proof.
  change (String.index 0 "'" (String b s))
    with (if String.prefix "'" (String b s) then Some 0
          else match String.index 0 "'" s with
               | Some n => Some (S n)
               | None => None
               end).
  rewrite prefix_quote. destruct (Ascii.eqb b "'"); [done|].
  by destruct (String.index 0 "'" s).
Qed.

Lemma index_cons_S (n : nat) (b : ascii) (s : string) :
  String.index (S n) "'" (String b s) = S <$> String.index n "'" s.
Proof.
  change (String.index (S n) "'" (String b s))
    with (match String.index n "'" s with
          | Some n => Some (S n)
          | None => None
          end).
  by destruct (String.index n "'" s).
Qed.

Lemma index_no_quote (s : string) :
  has_quote s = false -> String.index 0 "'" s = None.
Proof.
  induction s as [|c s IH]; [done|]. cbn [has_quote].
  intros H. apply orb_false_iff in H as [Hc Hs].
  rewrite index_cons_0, Hc, IH by done. done.
Qed.

Lemma index_first_quote (pre rest : string) :
  has_quote pre = false ->
  String.index 0 "'" (pre +:+ String "'" rest) = Some (String.length pre).
Proof.
  induction pre as [|c pre IH]; cbn [has_quote String.length].
  - intros _. change ("" +:+ String "'" rest) with (String "'" rest).
    by rewrite index_cons_0.
  - intros H. apply orb_false_iff in H as [Hc Hs].
    change (String c pre +:+ String "'" rest)
      with (String c (pre +:+ String "'" rest)).
    rewrite index_cons_0, Hc, IH by done. done.
Qed.

Lemma index_shift (pre t : string) (k : nat) :
  String.index (String.length pre + S k) "'" (pre +:+ t)
  = (fun i => String.length pre + i) <$> String.index (S k) "'" t.
Proof.
  induction pre as [|c pre IH]; cbn [String.length].
  - change ("" +:+ t) with t. cbn [Nat.add].
    by destruct (String.index (S k) "'" t).
  - change (String c pre +:+ t) with (String c (pre +:+ t)).
    cbn [Nat.add]. rewrite index_cons_S, IH.
    by destruct (String.index (S k) "'" t).
Qed.

Lemma length_append (a b : string) :
  String.length (a +:+ b) = String.length a + String.length b.
Proof.
  induction a as [|c a IH]; [done|].
  change (String c a +:+ b) with (String c (a +:+ b)).
  cbn [String.length]. by rewrite IH.
Qed.

Lemma substring_skip (pre t : string) (m : nat) :
  String.substring (String.length pre) m (pre +:+ t) = String.substring 0 m t.
Proof.
  induction pre as [|c pre IH]; [done|].
  change (String c pre +:+ t) with (String c (pre +:+ t)).
  cbn [String.length String.substring]. apply IH.
Qed.

Lemma substring_take (x post : string) :
  String.substring 0 (String.length x) (x +:+ post) = x.
Proof.
  induction x as [|c x IH].
  - change ("" +:+ post) with post. cbn [String.length]. by destruct post.
  - change (String c x +:+ post) with (String c (x +:+ post)).
    cbn [String.length String.substring]. by rewrite IH.
Qed.

Lemma substring_nothing (n : nat) (s : string) : String.substring n 0 s = "".
Proof.
  revert n. induction s as [|c s IH]; intros [|n]; cbn [String.substring]; auto.
Qed.

(** X11. When the transport error's text, read at [args[0].args[0]] of the
    exception, holds a first single-quoted segment, the invalid-URL message
    is [Invalid URL: ] followed by that segment, quotes included, and by
    nothing else of the text. *)
Theorem error_message_echoes_quoted (pre u post : string)
  (more more' : list pyobj) :
  has_quote pre = false -> has_quote u = false ->
  _create_error_message
    (PExc (PExc (PText (pre +:+ "'" +:+ u +:+ "'" +:+ post) :: more) :: more'))
  = Ok ("Invalid URL: '" +:+ u +:+ "'").
Proof.
  intros Hpre Hu. unfold _create_error_message.
  cbn [args_of first_of bind]. unfold find_quote. cbv zeta. f_equal.
  change ("'" +:+ u +:+ "'" +:+ post) with (String "'" (u +:+ String "'" post)).
  rewrite index_first_quote by done.
  replace (Z.to_nat (Z.of_nat (String.length pre) + 1))
    with (String.length pre + 1) by lia.
  rewrite index_shift, index_cons_S, index_first_quote by done.
  cbn [fmap option_fmap option_map].
  unfold slice. rewrite length_append. cbn [String.length].
  rewrite length_append. cbn [String.length].
  set (n := String.length pre). set (m := String.length u).
  set (k := String.length post).
  replace (Z.of_nat n <? 0)%Z with false by (symmetry; apply Z.ltb_ge; lia).
  replace (Z.to_nat (Z.min (Z.of_nat n) (Z.of_nat (n + S (m + S k))))) with n by lia.
  replace (Z.to_nat (Z.min (Z.of_nat (n + S m) + 1) (Z.of_nat (n + S (m + S k)))
                     - Z.min (Z.of_nat n) (Z.of_nat (n + S (m + S k)))))
    with (String.length ("'" +:+ u +:+ "'")).
  2: { rewrite length_append. cbn [String.length]. rewrite length_append.
       cbn [String.length]. fold m. lia. }
  subst n. rewrite substring_skip.
  change (String "'" (u +:+ String "'" post))
    with ("'" +:+ (u +:+ ("'" +:+ post))).
  replace ("'" +:+ (u +:+ ("'" +:+ post))) with (("'" +:+ u +:+ "'") +:+ post).
  2: { change (("'" +:+ u +:+ "'") +:+ post) with (String "'" ((u +:+ "'") +:+ post)).
       change ("'" +:+ u +:+ "'" +:+ post) with (String "'" (u +:+ ("'" +:+ post))).
       f_equal. clear. induction u as [|c u IH]; [done|].
       change (String c ((u +:+ "'") +:+ post) = String c (u +:+ "'" +:+ post)).
       by rewrite IH. }
  rewrite substring_take. reflexivity.
Qed.

(** X12. When the transport error's text, read at [args[0].args[0]] of the
    exception, holds no single quote, or only one, there is nothing to echo:
    the message is just [Invalid URL: ]. *)
Theorem error_message_without_quotes (pre rest : string)
  (more more' : list pyobj) :
  has_quote pre = false -> has_quote rest = false ->
  _create_error_message (PExc (PExc (PText pre :: more) :: more'))
  = Ok "Invalid URL: "
  /\ _create_error_message
       (PExc (PExc (PText (pre +:+ "'" +:+ rest) :: more) :: more'))
     = Ok "Invalid URL: ".
Proof.
  intros Hpre Hrest. split.
  - unfold _create_error_message.
    cbn [args_of first_of bind]. unfold find_quote. cbv zeta. f_equal.
    rewrite index_no_quote by done.
    change (Z.to_nat (-1 + 1)) with 0. rewrite index_no_quote by done.
    unfold slice. change (-1 + 1)%Z with 0%Z. cbn [Z.ltb Z.compare].
    replace (Z.to_nat (Z.min 0 (Z.of_nat (String.length pre))
                - Z.max 0 (-1 + Z.of_nat (String.length pre)))) with 0 by lia.
    by rewrite substring_nothing.
  - unfold _create_error_message.
    cbn [args_of first_of bind]. unfold find_quote. cbv zeta. f_equal.
    change ("'" +:+ rest) with (String "'" rest).
    rewrite index_first_quote by done.
    replace (Z.to_nat (Z.of_nat (String.length pre) + 1))
      with (String.length pre + 1) by lia.
    rewrite index_shift, index_cons_S, index_no_quote by done.
    cbn [fmap option_fmap option_map].
    unfold slice. change (-1 + 1)%Z with 0%Z.
    replace (Z.of_nat (String.length pre) <? 0)%Z with false
      by (symmetry; apply Z.ltb_ge; lia).
    replace (Z.to_nat (Z.min 0 (Z.of_nat (String.length
                (pre +:+ String "'" rest)))
              - Z.min (Z.of_nat (String.length pre))
                  (Z.of_nat (String.length (pre +:+ String "'" rest)))))
      with 0 by lia.
    by rewrite substring_nothing.
Qed.

(** * Registry, validation order and malformed datasets *)

(** X13. [_resolve_url] succeeds for the two registered dataset names only,
    each with its own URL; the match is exact, so any other name, the empty
    one included, raises. *)
Theorem resolve_url_registry (dataset_name url : string) :
  _resolve_url dataset_name = Ok url
  <-> (dataset_name = OPEN_ORCA /\ url = OPEN_ORCA_URL)
      \/ (dataset_name = CNN_DAILY_MAIL /\ url = CNN_DAILYMAIL_URL).
Proof.
  unfold _resolve_url, dataset_url_map. cbn [url_map_get].
  destruct (String.eqb_spec dataset_name OPEN_ORCA) as [->|H1].
  - split; [intros [= <-]; by left|].
    intros [[_ ->]|[H _]]; [done|discriminate H].
  - destruct (String.eqb_spec dataset_name CNN_DAILY_MAIL) as [->|H2].
    + split; [intros [= <-]; by right|].
      intros [[H _]|[_ ->]]; [discriminate H|done].
    + split; [discriminate|]. intros [[H _]|[H _]]; contradiction.
Qed.

(** X14. The three checks of the validation run in a fixed order and the
    first failure decides the message: a missing dataset name under a URL
    source is reported whatever the index and length are; then a
    [starting_index] that is not an integer or is negative; then a [length]
    that is not an integer or is below one.  This last message begins with
    [starting_index:], as the source has it, although it reports the
    length. *)
Theorem validation_first_failure :
  (forall starting_index length : pyarg,
      _check_for_valid_args URL "" starting_index length
      = Raise (GenAIPerfExceptionOf (GenAIPerfException (JStr
          "Input type is URL, but dataset_name is not specified."))))
  /\ forall (input_type : InputType) (dataset_name : string),
       (input_type = URL -> dataset_name <> "") ->
       (forall (shown : string) (length : pyarg),
           _check_for_valid_args input_type dataset_name (NonInt shown) length
           = Raise (GenAIPerfExceptionOf (GenAIPerfException (JStr
               ("starting_index: " +:+ shown +:+ " must be an integer.")))))
       /\ (forall (s : Z) (length : pyarg),
             (s < 0)%Z ->
             _check_for_valid_args input_type dataset_name (IntArg s) length
             = Raise (GenAIPerfExceptionOf (GenAIPerfException (JStr
                 ("starting_index: " +:+ pretty s
                  +:+ " must be larger than 0.")))))
       /\ (forall (s : Z) (shown : string),
             (0 <= s)%Z ->
             _check_for_valid_args input_type dataset_name
               (IntArg s) (NonInt shown)
             = Raise (GenAIPerfExceptionOf (GenAIPerfException (JStr
                 ("length: " +:+ shown +:+ " must be an integer.")))))
       /\ (forall s l : Z,
             (0 <= s)%Z -> (l < 1)%Z ->
             _check_for_valid_args input_type dataset_name (IntArg s) (IntArg l)
             = Raise (GenAIPerfExceptionOf (GenAIPerfException (JStr
                 ("starting_index: " +:+ pretty l
                  +:+ " must be larger than 1."))))).
Proof.
  split; [intros; apply missing_dataset_name_error|].
  intros input_type dataset_name Hname.
  assert (Hcheck :
    _check_for_dataset_name_if_input_type_is_url input_type dataset_name = Ok tt).
  { unfold _check_for_dataset_name_if_input_type_is_url. cbn [truthy].
    rewrite negb_involutive.
    destruct input_type; try done.
    specialize (Hname eq_refl). apply String.eqb_neq in Hname. by rewrite Hname. }
  split; [|split; [|split]].
  - intros shown length. unfold _check_for_valid_args. by rewrite Hcheck.
  - intros s length Hs. by apply negative_starting_index_error.
  - intros s shown Hs. unfold _check_for_valid_args. rewrite Hcheck. cbn [bind].
    unfold _check_for_valid_starting_index, MINIMUM_STARTING_INDEX.
    apply Z.ltb_ge in Hs. by rewrite Hs.
  - intros s l Hs Hl. by apply short_length_error.
Qed.

(** X15. Normalisation needs an object with a [rows] key: a raw dataset
    that is not a JSON object raises [AttributeError] at [.keys()], and an
    object with neither [features] nor [rows] raises [KeyError('rows')].  An
    object without rows never normalises, whatever its features are. *)
Theorem normalization_rejects_malformed :
  (forall raw : json,
      match raw with
      | JObj _ => True
      | _ => _convert_dataset_to_generic_input_json raw = Raise AttributeError
      end)
  /\ (forall d : list (string * json),
        dict_get "rows" d = None ->
        (exists e, _convert_dataset_to_generic_input_json (JObj d) = Raise e)
        /\ (dict_get "features" d = None ->
            _convert_dataset_to_generic_input_json (JObj d)
            = Raise (KeyError "rows"))).
Proof.
  split.
  - by intros [].
  - intros d Hrows.
    unfold _convert_dataset_to_generic_input_json, _add_rows_to_generic_json.
    split.
    + apply bind_raises. intros g. apply bind_raises. intros g'.
      cbn [getitem]. rewrite Hrows. by eexists.
    + intros Hfeat. unfold _add_features_to_generic_json.
      cbn [has_key bind getitem setitem]. by rewrite Hfeat, Hrows.
Qed.

End Collaborators.

(** ** Concrete runs *)

(** C5. A length below one is a violation that does not get its own error.
    With [starting_index = 5], which is valid, and [length = 0], the run stops
    in validation with the world untouched, as it should, but the exception
    it raises reads [starting_index: 0 must be larger than 1.]: it names
    [starting_index] and shows the length.  The other message of
    [_check_for_valid_length] is labelled [length:]. *)
Theorem short_length_blames_starting_index :
  _check_for_valid_starting_index (IntArg 5) = Ok tt
  /\ _check_for_valid_length (IntArg 0)
     = Raise (GenAIPerfException
                (JStr "starting_index: 0 must be larger than 1."))
  /\ _check_for_valid_length (NonInt "1.5")
     = Raise (GenAIPerfException (JStr "length: 1.5 must be an integer."))
  /\ create_llm_inputs unit still_seed still_generator offline
       "llm_inputs.json" blank_repr
       SYNTHETIC VLLM "" "gpt2" "" (IntArg 5) (IntArg 0)
       550 0 150 0 100 false false fresh_world
     = (Raise (GenAIPerfExceptionOf (GenAIPerfException
          (JStr "starting_index: 0 must be larger than 1."))),
        fresh_world).
Proof. repeat split. Qed.

(** A cell that is not text does not stop a run: under a header outside the
    roles it is never looked at, and [None] or [0] under a classified header
    counts as blank. *)
Lemma mixed_cells_run :
  create_llm_inputs unit still_seed still_generator mixed_server
    "llm_inputs.json" blank_repr
    URL VLLM "openorca" "gpt2" "" (IntArg 0) (IntArg 1)
    550 0 150 0 100 false false fresh_world
  = (Ok (JObj [("data", JList [JObj [("text_input", JList [JStr "why?"])]])]),
     {| generator := tt;
        log := [HttpGet (OPEN_ORCA_URL +:+ "&offset=0&length=1");
                FileWrite "llm_inputs.json"
                  (JObj [("data",
                          JList [JObj [("text_input", JList [JStr "why?"])]])])] |}).
Proof. reflexivity. Qed.

(** A row without its [row] wrapper, and a feature without its [name]
    wrapper, are not passed through: normalisation raises.  A raw dataset
    without a [features] key is normalised to a document that has no
    [features] key, not to one with an empty list under it. *)
Lemma normalization_bare_entries_raise :
  _convert_dataset_to_generic_input_json
    (JObj [("features", JList [JObj [("name", JStr "question")]]);
           ("rows", JList [JObj [("question", JStr "why?")]])])
  = Raise (KeyError "row")
  /\ _convert_dataset_to_generic_input_json
       (JObj [("features", JList [JStr "question"]);
              ("rows", JList [JObj [("row", JObj [("question", JStr "why?")])]])])
     = Raise TypeError
  /\ _convert_dataset_to_generic_input_json
       (JObj [("rows", JList [JObj [("row", JObj [("question", JStr "why?")])]])])
     = Ok (JObj [("rows", JList [JObj [("question", JStr "why?")]])])
  /\ getitem "features" (JObj [("rows", JList [JObj [("question", JStr "why?")]])])
     = Raise (KeyError "features").
Proof. repeat split. Qed.

Lemma normalization_of_wrapped_witness :
  dict_get "rows"
    [("features", JList [JObj [("name", JStr "question")]]);
     ("rows", JList [JObj [("row", JObj [("question", JStr "why?")])]])]
  = Some (JList [JObj [("row", JObj [("question", JStr "why?")])]])
  /\ _convert_dataset_to_generic_input_json
       (JObj [("features", JList [JObj [("name", JStr "question")]]);
              ("rows", JList [JObj [("row", JObj [("question", JStr "why?")])]])])
     = Ok (JObj [("features", JList [JStr "question"]);
                 ("rows", JList [JObj [("question", JStr "why?")]])]).
Proof.
  split; [reflexivity|].
  destruct (normalization_of_wrapped
              [("features", JList [JObj [("name", JStr "question")]]);
               ("rows", JList [JObj [("row", JObj [("question", JStr "why?")])]])]
              [JObj [("row", JObj [("question", JStr "why?")])]]
              eq_refl) as (_ & Hwrapped & _).
  apply (Hwrapped [JObj [("question", JStr "why?")]]
                  [JObj [("name", JStr "question")]]
                  [JStr "question"]).
  - repeat constructor.
  - reflexivity.
  - repeat constructor.
Defined.

(** Under a URL input source, the unregistered name [nosuch] and a negative
    starting index, the run raises the error of the validation, not the
    unknown-dataset error. *)
Lemma unknown_dataset_invalid_index_first :
  create_llm_inputs unit still_seed still_generator offline "llm_inputs.json" blank_repr
    URL VLLM "nosuch" "gpt2" "" (IntArg (-1)) (IntArg 1)
    550 0 150 0 100 true false fresh_world
  = (Raise (GenAIPerfExceptionOf (GenAIPerfException
       (JStr "starting_index: -1 must be larger than 0."))),
     fresh_world)
  /\ create_llm_inputs unit still_seed still_generator offline "llm_inputs.json" blank_repr
       URL VLLM "nosuch" "gpt2" "" (IntArg (-1)) (IntArg 1)
       550 0 150 0 100 true false fresh_world
     <> (Raise (GenAIPerfException (JStr
          "nosuch does not have a corresponding URL in the dataset_url_map.")),
         fresh_world).
Proof. split; [reflexivity|discriminate]. Qed.

Lemma unknown_dataset_before_fetch_witness :
  "nosuch" <> OPEN_ORCA /\ "nosuch" <> CNN_DAILY_MAIL
  /\ create_llm_inputs unit still_seed still_generator offline "llm_inputs.json" blank_repr
       URL VLLM "nosuch" "gpt2" "" (IntArg 0) (IntArg 1)
       550 0 150 0 100 true false fresh_world
     = (Raise (GenAIPerfException (JStr
          ("nosuch"
           +:+ " does not have a corresponding URL in the dataset_url_map."))),
        fresh_world).
Proof.
  split; [discriminate|]. split; [discriminate|].
  refine (proj1 (proj2 (unknown_dataset_before_fetch
           unit still_seed still_generator offline "llm_inputs.json" blank_repr
           "nosuch" VLLM "gpt2" "" (IntArg 0) (IntArg 1)
           550 0 150 0 100 true false fresh_world _ _)) _);
    [discriminate | discriminate | reflexivity].
Defined.

(** ** Concrete runs of the further properties *)

Lemma file_input_not_supported_witness :
  _check_for_valid_args FILE "" (IntArg 0) (IntArg 100) = Ok tt
  /\ create_llm_inputs unit still_seed still_generator offline "llm_inputs.json" blank_repr
       FILE VLLM "" "gpt2" "prompts.txt" (IntArg 0) (IntArg 100)
       550 0 150 0 100 false false fresh_world
     = (Raise (GenAIPerfException (JStr
          "Using a file to supply LLM Input is not supported at this time")),
        fresh_world).
Proof.
  split; [reflexivity|].
  apply (file_input_not_supported
           unit still_seed still_generator offline "llm_inputs.json" blank_repr
           VLLM "" "gpt2" "prompts.txt" (IntArg 0) (IntArg 100)
           550 0 150 0 100 false false fresh_world).
  reflexivity.
Defined.

Lemma synthetic_run_witness :
  _check_for_valid_args SYNTHETIC "" (IntArg 0) (IntArg 100) = Ok tt
  /\ exists (payloads : list json) (g : unit),
       create_llm_inputs unit still_seed still_generator offline "llm_inputs.json" blank_repr
         SYNTHETIC OPENAI_CHAT_COMPLETIONS "" "gpt2" "" (IntArg 0) (IntArg 100)
         550 0 150 7 3 true false fresh_world
       = (Ok (JObj [("data", JList payloads)]),
          {| generator := g;
             log := log fresh_world
                    ++ [FileWrite "llm_inputs.json"
                          (JObj [("data", JList payloads)])] |})
       /\ List.length payloads = Z.to_nat 3.
Proof.
  split; [reflexivity|].
  destruct (synthetic_run
              unit still_seed still_generator offline "llm_inputs.json" blank_repr
              OPENAI_CHAT_COMPLETIONS "" "gpt2" "" (IntArg 0) (IntArg 100)
              550 0 150 7 3 true false fresh_world eq_refl)
    as (payloads & g & Hrun & Hlen & _).
  by exists payloads, g.
Defined.

Lemma url_run_success_witness :
  _check_for_valid_args URL "openorca" (IntArg 0) (IntArg 1) = Ok tt
  /\ _resolve_url "openorca" = Ok OPEN_ORCA_URL
  /\ exists payloads : list json,
       _convert_generic_json_to_output_format VLLM
         {| features := Some ["system_prompt"; "question"];
            rows := [[("system_prompt", "be brief"); ("question", "why?")]] |}
         true false "gpt2"
       = Ok (JObj [("data", JList payloads)])
       /\ List.length payloads = 1
       /\ create_llm_inputs unit still_seed still_generator one_row_server
            "llm_inputs.json" blank_repr
            URL VLLM "openorca" "gpt2" "" (IntArg 0) (IntArg 1)
            550 0 150 0 100 true false fresh_world
          = (Ok (JObj [("data", JList payloads)]),
             {| generator := tt;
                log := [HttpGet (OPEN_ORCA_URL +:+ "&offset=0&length=1");
                        FileWrite "llm_inputs.json"
                          (JObj [("data", JList payloads)])] |}).
Proof.
  split; [reflexivity|]. split; [reflexivity|].
  apply (url_run_success
           unit still_seed still_generator one_row_server "llm_inputs.json" blank_repr
           VLLM "openorca" "gpt2" "" OPEN_ORCA_URL (IntArg 0) (IntArg 1)
           550 0 150 0 100 true false fresh_world
           (Some (JObj
              [("features", JList [JObj [("name", JStr "system_prompt")];
                                   JObj [("name", JStr "question")]]);
               ("rows", JList [JObj [("row",
                  JObj [("system_prompt", JStr "be brief");
                        ("question", JStr "why?")])]])]))
           (JObj [("features", JList [JStr "system_prompt"; JStr "question"]);
                  ("rows", JList [JObj [("system_prompt", JStr "be brief");
                                        ("question", JStr "why?")]])])
           {| features := Some ["system_prompt"; "question"];
              rows := [[("system_prompt", "be brief"); ("question", "why?")]] |});
    reflexivity.
Defined.

Lemma url_run_transport_failure_witness :
  _check_for_valid_args URL "cnn_dailymail" (IntArg 5) (IntArg 10) = Ok tt
  /\ _resolve_url "cnn_dailymail" = Ok CNN_DAILYMAIL_URL
  /\ create_llm_inputs unit still_seed still_generator offline
       "llm_inputs.json" blank_repr
       URL VLLM "cnn_dailymail" "gpt2" "" (IntArg 5) (IntArg 10)
       550 0 150 0 100 true false fresh_world
     = (Raise (GenAIPerfException
                 (JStr "Invalid URL: 'datasets-server.huggingface.co'")),
        {| generator := tt;
           log := [HttpGet (CNN_DAILYMAIL_URL +:+ "&offset=5&length=10")] |}).
Proof.
  split; [reflexivity|]. split; [reflexivity|].
  destruct (url_run_transport_failure
              unit still_seed still_generator offline "llm_inputs.json"
              blank_repr
              VLLM "cnn_dailymail" "gpt2" "" CNN_DAILYMAIL_URL
              (IntArg 5) (IntArg 10) 550 0 150 0 100 true false fresh_world
              (PExc [PExc [PText
                 "HTTPSConnectionPool(host='datasets-server.huggingface.co', port=443): Max retries exceeded"]])
              eq_refl eq_refl eq_refl)
    as (Hworld & Hwrapped & _).
  specialize (Hwrapped _ [] [] eq_refl).
  destruct (create_llm_inputs _ _ _ _ _ _ _ _ _ _ _ _ _ _ _ _ _ _ _ _)
    as [r w'].
  cbn [fst snd] in *. by subst.
Defined.

Lemma url_run_error_payload_witness :
  _check_for_valid_args URL "openorca" (IntArg 0) (IntArg 1) = Ok tt
  /\ _resolve_url "openorca" = Ok OPEN_ORCA_URL
  /\ create_llm_inputs unit still_seed still_generator failing_server
       "llm_inputs.json" blank_repr
       URL VLLM "openorca" "gpt2" "" (IntArg 0) (IntArg 1)
       550 0 150 0 100 true false fresh_world
     = (Raise (GenAIPerfExceptionOf
                 (GenAIPerfException (JStr "The dataset does not exist."))),
        {| generator := tt;
           log := log fresh_world
                  ++ [HttpGet (OPEN_ORCA_URL +:+ "&offset=" +:+ str_of (IntArg 0)
                               +:+ "&length=" +:+ str_of (IntArg 1))] |}).
Proof.
  split; [reflexivity|]. split; [reflexivity|].
  apply (url_run_error_payload
           unit still_seed still_generator failing_server "llm_inputs.json" blank_repr
           VLLM "openorca" "gpt2" "" OPEN_ORCA_URL
           (IntArg 0) (IntArg 1) 550 0 150 0 100 true false fresh_world
           (Some (JObj [("error", JStr "The dataset does not exist.")]))
           eq_refl eq_refl eq_refl (JStr "The dataset does not exist.") eq_refl).
Defined.

Lemma error_message_echoes_quoted_witness :
  has_quote "Max retries exceeded with url: " = false
  /\ has_quote "https://example.org/rows" = false
  /\ _create_error_message
       (PExc (PExc (PText
          ("Max retries exceeded with url: " +:+ "'"
           +:+ "https://example.org/rows"
           +:+ "'" +:+ " (Caused by 'NameResolutionError')") :: []) :: []))
     = Ok ("Invalid URL: '" +:+ "https://example.org/rows" +:+ "'").
Proof.
  split; [reflexivity|]. split; [reflexivity|].
  apply (error_message_echoes_quoted
           "Max retries exceeded with url: " "https://example.org/rows"
           " (Caused by 'NameResolutionError')" [] []); reflexivity.
Defined.

Lemma error_message_without_quotes_witness :
  has_quote "connection refused" = false
  /\ has_quote "s fault" = false
  /\ _create_error_message (PExc (PExc (PText "connection refused" :: []) :: []))
     = Ok "Invalid URL: "
  /\ _create_error_message
       (PExc (PExc (PText ("connection refused" +:+ "'" +:+ "s fault") :: [])
              :: []))
     = Ok "Invalid URL: ".
Proof.
  split; [reflexivity|]. split; [reflexivity|].
  apply (error_message_without_quotes "connection refused" "s fault" [] []);
    reflexivity.
Defined.
